(** * ThreeShaderCanvas: a shallow embedding of [ThreeShaderCanvas.js]

    The class wraps a three.js renderer, an orthographic camera and one
    full-screen quad whose [ShaderMaterial] carries the uniform table.  The
    embedding keeps the parts of the class that its documented behaviour
    is about:

    - JavaScript values ([Value]) with the objects a caller owns kept in a
      store ([Heap]) and addressed by reference, so that one object put
      under two uniform names stays one object;
    - the uniform table [material.uniforms] as a finite map from names to
      entries;
    - abrupt completion: the file is an ES module, hence strict code, where
      writing a property of [null], [undefined] or a primitive raises a
      [TypeError];
    - the host: [Date.now()] readings, [window.innerWidth/innerHeight] and
      the frame and resize events are inputs of the operations.

    Numbers are kept exact (rationals plus [NaN] and the infinities): the
    rounding of binary64 is not part of the model.  Names of uniforms are
    taken to be own properties of the table; the members that every object
    inherits from [Object.prototype] are outside the model. *)

From Stdlib Require Import ZArith QArith Qreduction.
From stdpp Require Import gmap strings list fin_maps.

Local Open Scope Z_scope.
Local Open Scope string_scope.

(** ** Numbers *)

Inductive Number :=
| NaN
| Infinity (negative : bool)
| Finite (q : Q).

Definition num_of_Z (z : Z) : Number := Finite (z # 1).

(** [x / d] for a positive integer literal [d] *)
Definition num_div (x : Number) (d : positive) : Number :=
  match x with
  | NaN => NaN
  | Infinity s => Infinity s
  | Finite q => Finite (Qred (q / (Zpos d # 1)))
  end.

(** [x + 1] *)
Definition num_succ (x : Number) : Number :=
  match x with
  | NaN => NaN
  | Infinity s => Infinity s
  | Finite q => Finite (Qred (q + 1))
  end.


(** ** Values, objects and the store *)

Definition loc := nat.

Inductive Value :=
| VUndefined
| VNull
| VBoolean (b : bool)
| VNumber (n : Number)
| VString (s : string)
| VObject (l : loc).

(** An ordinary object: its own data properties. *)
Abbreviation Obj := (gmap string Value).

(** The objects of the caller.  Every location holds an object; the ones not
    listed are empty objects. *)
Abbreviation Heap := (gmap loc Obj).

Definition object_at (h : Heap) (l : loc) : Obj := default ∅ (h !! l).

(** [o.p] on an object of the store *)
Definition get_property (h : Heap) (l : loc) (p : string) : Value :=
  default VUndefined (object_at h l !! p).

(** [o.p = v] on an object of the store *)
Definition put_property (h : Heap) (l : loc) (p : string) (v : Value) : Heap :=
  <[l := <[p := v]> (object_at h l)]> h.

(** [v == null] *)
Definition is_nullish (v : Value) : bool :=
  match v with
  | VUndefined | VNull => true
  | _ => false
  end.

(** ** The uniform table

    An entry of [material.uniforms] is either an object [{ value }] that the
    class created itself (the five built-in ones of the constructor and the
    ones [setUniform] adds), or whatever [config.uniforms[key]] held, kept as
    it came.  The objects of the first kind are reachable through the table
    only, so they are kept by value; the second kind may be a reference into
    the caller's store. *)

Inductive Entry :=
| Wrapper (value : Value)
| Supplied (v : Value).

Abbreviation Uniforms := (gmap string Entry).

(** [uniforms[key] == null] *)
Definition entry_nullish (e : option Entry) : bool :=
  match e with
  | None => true
  | Some (Supplied v) => is_nullish v
  | Some (Wrapper _) => false
  end.

(** ** The three.js objects, as far as the class drives them *)

Record Vec3 := mkVec3 { vx : Number; vy : Number; vz : Number }.

Record Camera := mkCamera {
  left : Number; right : Number; top : Number; bottom : Number;
  near : Number; far : Number;
  cam_position : Vec3;
  cam_target : Vec3;
  (** the bounds the projection matrix was last computed from *)
  projection : Number * Number * Number * Number
}.

(** What one [renderer.render(scene, camera)] draws with. *)
Record Frame := mkFrame {
  frame_clear : option Number;
  frame_camera : Camera;
  frame_uniforms : gmap string Value
}.

Record Loop := mkLoop { startTime : Z; lastFrameTime : Z }.

(** [THREE.WebGLRenderer]: the size of its canvas, the clear colour in
    force, how often it was cleared, and the frames it drew, latest first. *)
Record Renderer := mkRenderer {
  surface : Number * Number;
  clear_color : option Number;
  cleared : nat;
  rendered : list Frame
}.

Record Canvas := mkCanvas {
  heap : Heap;
  _renderer : Renderer;
  in_document : bool;
  _camera : Camera;
  (** [this._screenMesh] *)
  uniforms : Uniforms;
  fragmentShader : string;
  vertexShader : string;
  mesh_position : Vec3;
  mesh_scale : Vec3;
  (** the window's resize listener *)
  resize_listener : bool;
  _clearColor : Number;
  _isDrawing : bool;
  (** the [animate] closures handed to [requestAnimationFrame], with the
      variables each one captured *)
  loops : list Loop
}.

(** Field updates, one per field that a method assigns. *)

Definition with_heap (h : Heap) (s : Canvas) : Canvas :=
  mkCanvas h (_renderer s) (in_document s) (_camera s) (uniforms s)
    (fragmentShader s) (vertexShader s) (mesh_position s) (mesh_scale s)
    (resize_listener s) (_clearColor s) (_isDrawing s) (loops s).

Definition with_renderer (r : Renderer) (s : Canvas) : Canvas :=
  mkCanvas (heap s) r (in_document s) (_camera s) (uniforms s)
    (fragmentShader s) (vertexShader s) (mesh_position s) (mesh_scale s)
    (resize_listener s) (_clearColor s) (_isDrawing s) (loops s).

Definition with_camera (c : Camera) (s : Canvas) : Canvas :=
  mkCanvas (heap s) (_renderer s) (in_document s) c (uniforms s)
    (fragmentShader s) (vertexShader s) (mesh_position s) (mesh_scale s)
    (resize_listener s) (_clearColor s) (_isDrawing s) (loops s).

Definition with_uniforms (u : Uniforms) (s : Canvas) : Canvas :=
  mkCanvas (heap s) (_renderer s) (in_document s) (_camera s) u
    (fragmentShader s) (vertexShader s) (mesh_position s) (mesh_scale s)
    (resize_listener s) (_clearColor s) (_isDrawing s) (loops s).

Definition with_mesh (p sc : Vec3) (s : Canvas) : Canvas :=
  mkCanvas (heap s) (_renderer s) (in_document s) (_camera s) (uniforms s)
    (fragmentShader s) (vertexShader s) p sc
    (resize_listener s) (_clearColor s) (_isDrawing s) (loops s).

Definition with_resize_listener (b : bool) (s : Canvas) : Canvas :=
  mkCanvas (heap s) (_renderer s) (in_document s) (_camera s) (uniforms s)
    (fragmentShader s) (vertexShader s) (mesh_position s) (mesh_scale s)
    b (_clearColor s) (_isDrawing s) (loops s).

Definition with_clearColor (c : Number) (s : Canvas) : Canvas :=
  mkCanvas (heap s) (_renderer s) (in_document s) (_camera s) (uniforms s)
    (fragmentShader s) (vertexShader s) (mesh_position s) (mesh_scale s)
    (resize_listener s) c (_isDrawing s) (loops s).

Definition with_isDrawing (b : bool) (s : Canvas) : Canvas :=
  mkCanvas (heap s) (_renderer s) (in_document s) (_camera s) (uniforms s)
    (fragmentShader s) (vertexShader s) (mesh_position s) (mesh_scale s)
    (resize_listener s) (_clearColor s) b (loops s).

Definition with_loops (l : list Loop) (s : Canvas) : Canvas :=
  mkCanvas (heap s) (_renderer s) (in_document s) (_camera s) (uniforms s)
    (fragmentShader s) (vertexShader s) (mesh_position s) (mesh_scale s)
    (resize_listener s) (_clearColor s) (_isDrawing s) l.

(** ** Methods run in a state monad with one exception

    A method either completes normally with a result or throws a
    [TypeError]; the state reached so far is kept in both cases, as an
    exception does not undo the assignments made before it. *)

Inductive Completion (A : Type) :=
| Normal (a : A)
| TypeError.
Arguments Normal {A} a.
Arguments TypeError {A}.

Definition M (A : Type) : Type := Canvas -> Completion A * Canvas.

Definition ret {A} (a : A) : M A := fun s => (Normal a, s).

Definition bind {A B} (m : M A) (k : A -> M B) : M B :=
  fun s =>
    match m s with
    | (Normal a, s') => k a s'
    | (TypeError, s') => (TypeError, s')
    end.

Definition throw {A} : M A := fun s => (TypeError, s).

Definition gets {A} (f : Canvas -> A) : M A := fun s => (Normal (f s), s).

Definition modify (f : Canvas -> Canvas) : M unit := fun s => (Normal tt, f s).

Declare Scope js_scope.
Delimit Scope js_scope with js.
Notation "x <- m ;; k" := (bind m (fun x => k))
  (at level 100, m at next level, right associativity) : js_scope.
Notation "m ;; k" := (bind m (fun _ => k))
  (at level 100, right associativity) : js_scope.
Local Open Scope js_scope.

(** ** Reading and writing the [value] of an entry *)

(** [e.value] for an entry [e] that is neither [null] nor [undefined]; a
    primitive has no such property. *)
Definition read_value (h : Heap) (e : Entry) : Value :=
  match e with
  | Wrapper v => v
  | Supplied (VObject l) => get_property h l "value"
  | Supplied _ => VUndefined
  end.

(** [uniforms[key].value], which throws when the entry is [null] or
    [undefined]. *)
Definition load_value (key : string) : M Value :=
  fun s =>
    match uniforms s !! key with
    | Some e =>
        if entry_nullish (Some e) then (TypeError, s)
        else (Normal (read_value (heap s) e), s)
    | None => (TypeError, s)
    end.

(** [uniforms[key].value = value]: a write into the entry's object; on
    [null] and [undefined], and in strict code on a primitive, it throws. *)
Definition store_value (key : string) (value : Value) : M unit :=
  fun s =>
    match uniforms s !! key with
    | Some (Wrapper _) =>
        (Normal tt, with_uniforms (<[key := Wrapper value]> (uniforms s)) s)
    | Some (Supplied (VObject l)) =>
        (Normal tt, with_heap (put_property (heap s) l "value" value) s)
    | Some (Supplied _) | None => (TypeError, s)
    end.

(** ** The accessors of the uniform table *)

Definition setUniform (key : string) (value : Value) : M unit :=
  fun s =>
    if entry_nullish (uniforms s !! key)
    then (Normal tt, with_uniforms (<[key := Wrapper value]> (uniforms s)) s)
    else store_value key value s.

(** [uniforms[key]?.value] *)
Definition uniform_value (h : Heap) (e : option Entry) : Value :=
  match e with
  | Some e' => if entry_nullish e then VUndefined else read_value h e'
  | None => VUndefined
  end.

Definition getUniform (key : string) : M Value :=
  gets (fun s => uniform_value (heap s) (uniforms s !! key)).

(** The caller's function is pure: it may look at the objects its argument
    refers to and changes nothing. *)
Definition Func := Heap -> Value -> Value.

Definition applyToUniform (key : string) (func : Func) : M unit :=
  old <- getUniform key ;;
  h <- gets heap ;;
  setUniform key (func h old).

Definition getClearColor : M Number := gets _clearColor.

Definition setClearColor (newColor : Number) : M unit :=
  modify (with_clearColor newColor).

(** ** resize *)

Definition renderer_setSize (w h : Number) (r : Renderer) : Renderer :=
  mkRenderer (w, h) (clear_color r) (cleared r) (rendered r).

Definition camera_resize (w h : Number) (c : Camera) : Camera :=
  mkCamera (left c) w (top c) h (near c) (far c) (cam_position c) (cam_target c)
    (left c, w, top c, h).

Definition resize (newWidth newHeight : Number) : M unit :=
  modify (fun s => with_renderer (renderer_setSize newWidth newHeight (_renderer s)) s) ;;
  modify (fun s => with_camera (camera_resize newWidth newHeight (_camera s)) s) ;;
  store_value "screenWidth" (VNumber newWidth) ;;
  store_value "screenHeight" (VNumber newHeight) ;;
  modify (with_mesh
            (mkVec3 (num_div newWidth 2) (num_div newHeight 2) (num_of_Z 0))
            (mkVec3 newWidth newHeight (num_of_Z 1))).

(** ** The construction configuration *)

Module Config.
Record t := mk {
  uniforms : option (gmap string Value);
  fragmentShader : option string;
  _vertexShader : option string;
  autoAppend : option bool;
  autoResize : option bool;
  autoStart : option bool;
  clearColor : option Number
}.
(** [{ }], the default argument of the constructor *)
Definition empty : t := mk None None None None None None None.
End Config.

(** [x ?? d] *)
Definition nullish_or {A} (x : option A) (d : A) : A := default d x.
Infix "??" := nullish_or (at level 45, left associativity) : js_scope.

Definition _DEFAULT_VERTEX_SHADER : string := "
out vec2 fUv;
void main() {
    gl_Position = projectionMatrix * modelViewMatrix * vec4( position, 1.0 );
    fUv = vec2(abs(uv.x - 1.0), uv.y);
}
".

Definition _DEFAULT_FRAGMENT_SHADER : string := "
in vec2 fUv;
void main() {
    gl_FragColor = vec4(fUv.x, 0.0f, fUv.y, 1.0f);
}
".

(** The uniforms the constructor gives to [THREE.ShaderMaterial]. *)
Definition builtin_uniforms : Uniforms :=
  <["screenWidth" := Wrapper (VNumber (num_of_Z 1))]>
  (<["screenHeight" := Wrapper (VNumber (num_of_Z 1))]>
  (<["time" := Wrapper (VNumber (num_of_Z 0))]>
  (<["deltaTime" := Wrapper (VNumber (num_of_Z 0))]>
  (<["frame" := Wrapper (VNumber (num_of_Z 0))]> ∅)))).

Definition builtin_names : list string :=
  ["screenWidth"; "screenHeight"; "time"; "deltaTime"; "frame"].

(** [for (const key of Object.keys(config.uniforms))
       material.uniforms[key] = config.uniforms[key];] *)
Definition install_uniforms (supplied : gmap string Value) (u : Uniforms) : Uniforms :=
  map_fold (fun key v acc => <[key := Supplied v]> acc) u supplied.

(** ** The draw loop *)

Definition renderer_setClearColor (c : Number) (r : Renderer) : Renderer :=
  mkRenderer (surface r) (Some c) (cleared r) (rendered r).

Definition renderer_clear (r : Renderer) : Renderer :=
  mkRenderer (surface r) (clear_color r) (S (cleared r)) (rendered r).

(** The values the shader program is run with. *)
Definition shown_uniforms (s : Canvas) : gmap string Value :=
  (fun e => uniform_value (heap s) (Some e)) <$> uniforms s.

Definition renderer_render (s : Canvas) : Renderer :=
  let r := _renderer s in
  mkRenderer (surface r) (clear_color r) (cleared r)
    (mkFrame (clear_color r) (_camera s) (shown_uniforms s) :: rendered r).

(** A conversion of strings to numbers under which no string is a numeral;
    the examples below run with it. *)
Definition not_a_numeral : string -> Number := fun _ => NaN.

Section DrawLoop.

(** The conversion of a string to a number is the language's; the class
    does not depend on which function it is. *)
Variable StringToNumber : string -> Number.

Definition ToNumber (v : Value) : Number :=
  match v with
  | VUndefined => NaN
  | VNull => num_of_Z 0
  | VBoolean b => num_of_Z (if b then 1 else 0)
  | VNumber n => n
  | VString s => StringToNumber s
  | VObject _ => NaN
  end.

(** [uniforms[key].value++] *)
Definition increment (key : string) : M unit :=
  old <- load_value key ;;
  store_value key (VNumber (num_succ (ToNumber old))).

(** One run of the closure [animate] number [i], with [now] what
    [Date.now()] answers in it.  Its first statement asks the host for the
    next frame, so a closure that was started stays in [loops]. *)
Definition animate (i : nat) (now : Z) : M unit :=
  fun s =>
    match loops s !! i with
    | None => (Normal tt, s)
    | Some l =>
        (modify (fun s => with_renderer (renderer_setClearColor (_clearColor s) (_renderer s)) s) ;;
         modify (fun s => with_renderer (renderer_clear (_renderer s)) s) ;;
         store_value "deltaTime" (VNumber (num_div (num_of_Z (now - lastFrameTime l)) 1000)) ;;
         store_value "time" (VNumber (num_div (num_of_Z (now - startTime l)) 1000)) ;;
         modify (fun s => with_renderer (renderer_render s) s) ;;
         increment "frame" ;;
         modify (fun s => with_loops (<[i := mkLoop (startTime l) now]> (loops s)) s)) s
    end.

(** [startDrawing] up to the definition of [animate]: the flag is set and the
    two variables of the closure are read off the clock, [t_start] first and
    [t_last] second.  The result is the number of the new closure. *)
Definition startDrawing_enter (t_start t_last : Z) : M nat :=
  modify (with_isDrawing true) ;;
  i <- gets (fun s => length (loops s)) ;;
  modify (fun s => with_loops (loops s ++ [mkLoop t_start t_last]) s) ;;
  ret i.

(** [t_start], [t_last] and [t_now] are the three readings of [Date.now()]
    that a call which starts the loop makes, in this order. *)
Definition startDrawing (t_start t_last t_now : Z) : M bool :=
  fun s =>
    if _isDrawing s then (Normal false, s)
    else
      (i <- startDrawing_enter t_start t_last ;;
       animate i t_now ;;
       ret true) s.

(** ** The constructor *)

Definition new_renderer : Renderer :=
  mkRenderer (num_of_Z 1, num_of_Z 1) None 0 [].

Definition new_camera : Camera :=
  mkCamera (num_of_Z 0) (num_of_Z 1) (num_of_Z 0) (num_of_Z 1)
    (Finite (1 # 100)) (num_of_Z 1000)
    (mkVec3 (num_of_Z 0) (num_of_Z 0) (num_of_Z 100))
    (mkVec3 (num_of_Z 0) (num_of_Z 0) (num_of_Z 0))
    (num_of_Z 0, num_of_Z 1, num_of_Z 0, num_of_Z 1).

Definition new_uniforms (config : Config.t) : Uniforms :=
  match Config.uniforms config with
  | Some supplied => install_uniforms supplied builtin_uniforms
  | None => builtin_uniforms
  end.

(** The object as it is when the constructor reaches its call of [resize];
    [_clearColor] and [_isDrawing] are not assigned yet. *)
Definition allocated (config : Config.t) (h : Heap) : Canvas :=
  mkCanvas h new_renderer (Config.autoAppend config ?? true) new_camera
    (new_uniforms config)
    (Config.fragmentShader config ?? _DEFAULT_FRAGMENT_SHADER)
    (Config._vertexShader config ?? _DEFAULT_VERTEX_SHADER)
    (mkVec3 (num_of_Z 0) (num_of_Z 0) (num_of_Z 0))
    (mkVec3 (num_of_Z 1) (num_of_Z 1) (num_of_Z 1))
    false NaN false [].

(** [new ThreeShaderCanvas(config)] in a store [h], with the window
    [innerWidth] by [innerHeight] and the clock readings of [startDrawing]. *)
Definition constructor (config : Config.t) (innerWidth innerHeight : Number)
    (t_start t_last t_now : Z) (h : Heap) : Completion unit * Canvas :=
  (resize innerWidth innerHeight ;;
   modify (with_resize_listener (Config.autoResize config ?? true)) ;;
   modify (with_clearColor (Config.clearColor config ?? num_of_Z 5592405)) ;;
   modify (with_isDrawing false) ;;
   if Config.autoStart config ?? true
   then (startDrawing t_start t_last t_now ;; ret tt)
   else ret tt) (allocated config h).

(** ** What happens to an instance

    The calls of the public methods, the two host events the class
    subscribes to, and a write of the caller to one of its own objects. *)
Inductive Call :=
| Call_setUniform (key : string) (value : Value)
| Call_applyToUniform (key : string) (func : Func)
| Call_getUniform (key : string)
| Call_resize (newWidth newHeight : Number)
| Call_getClearColor
| Call_setClearColor (newColor : Number)
| Call_startDrawing (t_start t_last t_now : Z)
| Host_frame (i : nat) (now : Z)
| Host_resize (innerWidth innerHeight : Number)
| Caller_write (l : loc) (p : string) (v : Value).

(** The state after a call; an exception leaves the state it was thrown
    in. *)
Definition after (c : Call) (s : Canvas) : Canvas :=
  match c with
  | Call_setUniform key value => (setUniform key value s).2
  | Call_applyToUniform key func => (applyToUniform key func s).2
  | Call_getUniform key => (getUniform key s).2
  | Call_resize w h => (resize w h s).2
  | Call_getClearColor => (getClearColor s).2
  | Call_setClearColor c => (setClearColor c s).2
  | Call_startDrawing t_start t_last t_now => (startDrawing t_start t_last t_now s).2
  | Host_frame i now => (animate i now s).2
  | Host_resize w h => if resize_listener s then (resize w h s).2 else s
  | Caller_write l p v => with_heap (put_property (heap s) l p v) s
  end.

Definition after_all (cs : list Call) (s : Canvas) : Canvas :=
  foldl (fun s c => after c s) s cs.

(** ** Notions used in the statements *)

(** The entry is an object [{ value }] that the class made itself. *)
Definition own_entry (e : option Entry) : bool :=
  match e with
  | Some (Wrapper _) => true
  | _ => false
  end.

(** The value is a primitive other than [null] and [undefined]. *)
Definition plain_value (v : Value) : bool :=
  match v with
  | VBoolean _ | VNumber _ | VString _ => true
  | _ => false
  end.

(** The entry is such a primitive. *)
Definition plain_entry (e : option Entry) : bool :=
  match e with
  | Some (Supplied v) => plain_value v
  | _ => false
  end.

(** The configuration has no uniform under a built-in name. *)
Definition leaves_builtins (config : Config.t) : Prop :=
  forall supplied key,
    Config.uniforms config = Some supplied ->
    key ∈ builtin_names -> supplied !! key = None.

(** What the configuration supplies under [key], if anything. *)
Definition supplied_at (config : Config.t) (key : string) : option Value :=
  match Config.uniforms config with
  | Some supplied => supplied !! key
  | None => None
  end.

(** The call goes through [setUniform] for [key]. *)
Definition sets (key : string) (c : Call) : bool :=
  match c with
  | Call_setUniform k _ | Call_applyToUniform k _ => bool_decide (k = key)
  | _ => false
  end.

(** The call is a call of [startDrawing]. *)
Definition is_startDrawing (c : Call) : bool :=
  match c with
  | Call_startDrawing _ _ _ => true
  | _ => false
  end.





(** [setUniform(key, value)] followed by [getUniform(key)] hands back
    [value]. *)
Definition round_trip (s : Canvas) (key : string) (value : Value) : Prop :=
  exists s1,
    setUniform key value s = (Normal tt, s1) /\
    getUniform key s1 = (Normal value, s1).



(** The sequence the documentation gives for [applyToUniform]: a call of
    [getUniform], the function, a call of [setUniform]. *)
Definition get_apply_set (key : string) (func : Func) : M unit :=
  fun s =>
    match getUniform key s with
    | (Normal old, s1) => setUniform key (func (heap s1) old) s1
    | (TypeError, s1) => (TypeError, s1)
    end.

(** ** Notions used in the proofs *)


(** The table changes in one way only: an object [{ value }] of the class is
    put or renewed under a name.  [grows W u u'] says that [u'] comes from
    [u] by such steps, at names in [W]. *)
Inductive grows (W : list string) : Uniforms -> Uniforms -> Prop :=
| grows_refl u : grows W u u
| grows_step u u' key v :
    grows W u u' -> key ∈ W -> grows W u (<[key := Wrapper v]> u').

(** The computation changes the table by such steps at names in [W]. *)
Definition touches {A} (W : list string) (m : M A) : Prop :=
  forall s, grows W (uniforms s) (uniforms (m s).2).

(** The names whose entries a call may renew. *)
Definition written (c : Call) : list string :=
  match c with
  | Call_setUniform key _ | Call_applyToUniform key _ => [key]
  | Call_resize _ _ | Host_resize _ _ => ["screenWidth"; "screenHeight"]
  | Call_startDrawing _ _ _ | Host_frame _ _ => ["deltaTime"; "time"; "frame"]
  | _ => []
  end.

(** The computation leaves [f] of the state as it was, however it
    completes. *)
Definition unchanged {A B} (f : Canvas -> B) (m : M A) : Prop :=
  forall s, f (m s).2 = f s.

(** [f] looks at neither the table nor the store. *)
Definition beside_table {B} (f : Canvas -> B) : Prop :=
  (forall s u, f (with_uniforms u s) = f s) /\
  (forall s h, f (with_heap h s) = f s).

(** The state [resize] leaves when both size entries are the class's own. *)
Definition resized (w h : Number) (s : Canvas) : Canvas :=
  mkCanvas (heap s) (renderer_setSize w h (_renderer s)) (in_document s)
    (camera_resize w h (_camera s))
    (<["screenHeight" := Wrapper (VNumber h)]>
       (<["screenWidth" := Wrapper (VNumber w)]> (uniforms s)))
    (fragmentShader s) (vertexShader s)
    (mkVec3 (num_div w 2) (num_div h 2) (num_of_Z 0))
    (mkVec3 w h (num_of_Z 1))
    (resize_listener s) (_clearColor s) (_isDrawing s) (loops s).

(** The table when [animate] renders, and the state it leaves, when the three
    entries it writes are the class's own; [count] is the old value of
    [frame]. *)
Definition timed (l : Loop) (now : Z) (u : Uniforms) : Uniforms :=
  <["time" := Wrapper (VNumber (num_div (num_of_Z (now - startTime l)) 1000))]>
    (<["deltaTime" :=
         Wrapper (VNumber (num_div (num_of_Z (now - lastFrameTime l)) 1000))]> u).

Definition drawn (l : Loop) (now : Z) (s : Canvas) : Frame :=
  mkFrame (Some (_clearColor s)) (_camera s)
    ((fun e => uniform_value (heap s) (Some e)) <$> timed l now (uniforms s)).

Definition animated (i : nat) (l : Loop) (now : Z) (count : Value) (s : Canvas) : Canvas :=
  mkCanvas (heap s)
    (mkRenderer (surface (_renderer s)) (Some (_clearColor s))
       (S (cleared (_renderer s))) (drawn l now s :: rendered (_renderer s)))
    (in_document s) (_camera s)
    (<["frame" := Wrapper (VNumber (num_succ (ToNumber count)))]>
       (timed l now (uniforms s)))
    (fragmentShader s) (vertexShader s) (mesh_position s) (mesh_scale s)
    (resize_listener s) (_clearColor s) (_isDrawing s)
    (<[i := mkLoop (startTime l) now]> (loops s)).

(** The instance when the constructor comes to [autoStart]. *)
Definition idle (config : Config.t) (w h : Number) (st : Heap) : Canvas :=
  with_isDrawing false
    (with_clearColor (Config.clearColor config ?? num_of_Z 5592405)
       (with_resize_listener (Config.autoResize config ?? true)
          (resized w h (allocated config st)))).

(** The instance a configuration that leaves the built-in names alone
    gives. *)
Definition built (config : Config.t) (w h : Number)
    (t_start t_last t_now : Z) (st : Heap) : Canvas :=
  if Config.autoStart config ?? true
  then animated 0 (mkLoop t_start t_last) t_now (VNumber (num_of_Z 0))
         (with_loops [mkLoop t_start t_last]
            (with_isDrawing true (idle config w h st)))
  else idle config w h st.


(** The left and top bounds of the camera are assigned by no method. *)
Definition camera_origin (s : Canvas) : Number * Number :=
  (left (_camera s), top (_camera s)).

(** The call is a call of [resize], by the caller or by the listener. *)
Definition is_resize (c : Call) : bool :=
  match c with
  | Call_resize _ _ | Host_resize _ _ => true
  | _ => false
  end.

(** The call is a run of [animate] by the host. *)
Definition is_frame (c : Call) : bool :=
  match c with
  | Host_frame _ _ => true
  | _ => false
  end.


(** [(to - from) / 1000] *)
Definition elapsed (from to : Z) : Number :=
  num_div (num_of_Z (to - from)) 1000.


(** The two size entries are the class's own and hold the size of the
    renderer's canvas. *)
Definition sized (s : Canvas) : Prop :=
  uniforms s !! "screenWidth"
    = Some (Wrapper (VNumber (surface (_renderer s)).1)) /\
  uniforms s !! "screenHeight"
    = Some (Wrapper (VNumber (surface (_renderer s)).2)).

(** ** Notions used for the further properties *)

(** The entry is an object, one of the class's own or one of the caller's:
    its [value] can be written. *)
Definition object_entry (e : option Entry) : bool :=
  match e with
  | Some (Wrapper _) | Some (Supplied (VObject _)) => true
  | _ => false
  end.


(** A function of the caller that looks at its argument only. *)
Definition by_value (f : Value -> Value) : Func := fun _ old => f old.

(** [s'] differs from [s] in the table and the store at most, and every
    entry is an object in [s'] exactly when it was one in [s]. *)
Definition entries_written (s s' : Canvas) : Prop :=
  (exists u h, s' = with_heap h (with_uniforms u s)) /\
  forall key, object_entry (uniforms s' !! key) = object_entry (uniforms s !! key).


(** What the constructor takes from the configuration and no method
    assigns: whether the canvas is in the document, whether the window's
    resize is listened to, and the two shader sources. *)
Definition construction_options (s : Canvas) : bool * bool * string * string :=
  (in_document s, resize_listener s, fragmentShader s, vertexShader s).

(** The colour that the calls of [setClearColor] in [cs] leave, from [c0]. *)
Definition clearColor_after (c0 : Number) (cs : list Call) : Number :=
  foldl (fun c call =>
           match call with
           | Call_setClearColor newColor => newColor
           | _ => c
           end) c0 cs.

(** The frame was drawn with the size uniforms at the bounds of the camera
    it was drawn through. *)
Definition frame_fits (f : Frame) : Prop :=
  frame_uniforms f !! "screenWidth" = Some (VNumber (right (frame_camera f))) /\
  frame_uniforms f !! "screenHeight" = Some (VNumber (bottom (frame_camera f))).

(** The size uniforms, the camera and the renderer agree on the size, and
    every frame drawn so far fits. *)
Definition fitted (s : Canvas) : Prop :=
  sized s /\
  right (_camera s) = (surface (_renderer s)).1 /\
  bottom (_camera s) = (surface (_renderer s)).2 /\
  Forall frame_fits (rendered (_renderer s)).

(** ** The example [example/uv/script.js] *)

Definition _UV_FRAGMENT_SHADER : string := "
uniform int screenWidth;
uniform int screenHeight;
uniform float time;
uniform float deltaTime;
uniform int frame;

in vec2 fUv;

void main() {
    // Taken from https://www.shadertoy.com/new
    gl_FragColor = vec4(vec3(
        0.5 + 0.5 * cos(time + fUv.xyx + vec3(0, 2, 4))
    ), 1.0);
}
".

(** The configuration the example passes: [{ fragmentShader: ... }]. *)
Definition uv_config : Config.t :=
  Config.mk None (Some _UV_FRAGMENT_SHADER) None None None None None.

(** The listener of the window's [load] event. *)
Definition uv_load (innerWidth innerHeight : Number)
    (t_start t_last t_now : Z) (st : Heap) : Completion unit * Canvas :=
  constructor uv_config innerWidth innerHeight t_start t_last t_now st.

End DrawLoop.

(** ** Instances for the examples

    The instances below live in a window of 800 by 600 pixels; the clock
    readings are in milliseconds. *)

(** [{ }]: the loop starts in the constructor. *)
Definition default_canvas : Canvas :=
  (constructor not_a_numeral Config.empty
     (num_of_Z 800) (num_of_Z 600) 1000 1001 1002 ∅).2.

(** [{ autoStart: false }] *)
Definition manual_config : Config.t :=
  Config.mk None None None None None (Some false) None.

Definition manual_canvas : Canvas :=
  (constructor not_a_numeral manual_config
     (num_of_Z 800) (num_of_Z 600) 0 0 0 ∅).2.

(** [{ uniforms: { speed: 2, tint: t }, autoStart: false }] with [t] the
    caller's object [{ value: 1 }], at location [0] of the store. *)
Definition caller_store : Heap :=
  {[ 0%nat := {[ "value" := VNumber (num_of_Z 1) ]} ]}.

Definition plain_config : Config.t :=
  Config.mk
    (Some (<["speed" := VNumber (num_of_Z 2)]> {[ "tint" := VObject 0%nat ]}))
    None None None None (Some false) None.

Definition plain_canvas : Canvas :=
  (constructor not_a_numeral plain_config
     (num_of_Z 800) (num_of_Z 600) 0 0 0 caller_store).2.




(** Sequences of calls on the default canvas. *)
Definition frames_and_resize : list Call :=
  [Host_frame 0 1018; Call_resize (num_of_Z 640) (num_of_Z 480); Host_frame 0 1034].



(** [old => old === undefined ? 1 : old] *)
Definition one_if_undefined : Func :=
  fun _ old => match old with VUndefined => VNumber (num_of_Z 1) | _ => old end.





(** [{ uniforms: { screenWidth: t, screenHeight: t } }] with [t] the
    caller's object [{ value: 0 }], at location [0] of the store. *)
Definition shared_store : Heap :=
  {[ 0%nat := {[ "value" := VNumber (num_of_Z 0) ]} ]}.

Definition shared_config : Config.t :=
  Config.mk
    (Some (<["screenWidth" := VObject 0%nat]> {[ "screenHeight" := VObject 0%nat ]}))
    None None None None None None.

Definition shared_canvas : Canvas :=
  (constructor not_a_numeral shared_config
     (num_of_Z 800) (num_of_Z 600) 1000 1001 1002 shared_store).2.

(** [{ autoResize: false }] *)
Definition fixed_config : Config.t :=
  Config.mk None None None None (Some false) None None.

(** A new clear colour, then a frame. *)
Definition recolour_and_frame : list Call :=
  [Call_setClearColor (num_of_Z 255); Host_frame 0 1018].

(** * Properties *)

Section Properties.

Variable StringToNumber : string -> Number.

#[local] Abbreviation ToNumber := (ToNumber StringToNumber).
#[local] Abbreviation increment := (increment StringToNumber).
#[local] Abbreviation animate := (animate StringToNumber).
#[local] Abbreviation startDrawing := (startDrawing StringToNumber).
#[local] Abbreviation constructor := (constructor StringToNumber).
#[local] Abbreviation after := (after StringToNumber).
#[local] Abbreviation after_all := (after_all StringToNumber).
#[local] Abbreviation animated := (animated StringToNumber).
#[local] Abbreviation built := (built StringToNumber).

(** ** The monad *)

Lemma bind_normal {A B} (m : M A) (k : A -> M B) s a s' :
  m s = (Normal a, s') -> bind m k s = k a s'.
Proof. intros H. unfold bind. by rewrite H. Qed.

Lemma bind_throw {A B} (m : M A) (k : A -> M B) s s' :
  m s = (TypeError, s') -> bind m k s = (TypeError, s').
Proof. intros H. unfold bind. by rewrite H. Qed.






(** ** How the methods change the uniform table *)

Lemma grows_trans W u1 u2 u3 : grows W u1 u2 -> grows W u2 u3 -> grows W u1 u3.
Proof. intros H12 H23. induction H23; [done|]. by constructor; auto. Qed.

Lemma grows_mono W W' u u' : W ⊆ W' -> grows W u u' -> grows W' u u'.
Proof. intros HW H. induction H; [constructor|]. constructor; auto. Qed.

Lemma grows_other W u u' key : grows W u u' -> key ∉ W -> u' !! key = u !! key.
Proof.
  intros H Hk. induction H as [|u u' k v _ IH Hin]; [done|].
  rewrite lookup_insert_ne; [done|]. intros ->. contradiction.
Qed.

Lemma grows_own W u u' key :
  grows W u u' -> own_entry (u !! key) = true -> own_entry (u' !! key) = true.
Proof.
  intros H Hk. induction H as [|u u' k v _ IH Hin]; [done|].
  destruct (decide (k = key)) as [->|Hne].
  - by rewrite lookup_insert_eq.
  - rewrite lookup_insert_ne; auto.
Qed.


Lemma touches_bind {A B} W (m : M A) (k : A -> M B) :
  touches W m -> (forall a, touches W (k a)) -> touches W (bind m k).
Proof.
  intros Hm Hk s. unfold bind. specialize (Hm s).
  destruct (m s) as [[a|] s1]; simpl in *; [|done].
  eapply grows_trans; [exact Hm|apply Hk].
Qed.

Lemma touches_mono {A} W W' (m : M A) : W ⊆ W' -> touches W m -> touches W' m.
Proof. intros HW H s. eapply grows_mono; eauto. Qed.

Lemma touches_ret {A} W (a : A) : touches W (ret a).
Proof. intros s. constructor. Qed.

Lemma touches_gets {A} W (f : Canvas -> A) : touches W (gets f).
Proof. intros s. constructor. Qed.

Lemma touches_modify W f :
  (forall s, uniforms (f s) = uniforms s) -> touches W (modify f).
Proof. intros H s. simpl. rewrite H. constructor. Qed.

Lemma touches_store_value W key v : key ∈ W -> touches W (store_value key v).
Proof.
  intros Hk s. unfold store_value.
  destruct (uniforms s !! key) as [[w|[| | | | |l]]|]; simpl; try constructor.
  - constructor.
  - done.
Qed.

Lemma touches_load_value W key : touches W (load_value key).
Proof.
  intros s. unfold load_value.
  destruct (uniforms s !! key) as [e|]; [|constructor].
  destruct (entry_nullish (Some e)); constructor.
Qed.

Lemma touches_setUniform W key v : key ∈ W -> touches W (setUniform key v).
Proof.
  intros Hk s. unfold setUniform.
  destruct (entry_nullish (uniforms s !! key)).
  - simpl. constructor; [constructor|done].
  - by apply touches_store_value.
Qed.

Lemma touches_getUniform W key : touches W (getUniform key).
Proof. apply touches_gets. Qed.

Lemma touches_applyToUniform W key func :
  key ∈ W -> touches W (applyToUniform key func).
Proof.
  intros Hk. unfold applyToUniform.
  apply touches_bind; [apply touches_getUniform|intros old].
  apply touches_bind; [apply touches_gets|intros h].
  by apply touches_setUniform.
Qed.

Ltac touches_steps :=
  repeat first
    [ apply touches_bind; [|intros ?]
    | apply touches_ret
    | apply touches_gets
    | apply touches_load_value
    | apply touches_modify; intros ?; reflexivity
    | apply touches_store_value; set_solver ].

Lemma touches_resize W w h :
  "screenWidth" ∈ W -> "screenHeight" ∈ W -> touches W (resize w h).
Proof. intros H1 H2. unfold resize. touches_steps. Qed.

Lemma touches_increment W key : key ∈ W -> touches W (increment key).
Proof. intros Hk. unfold increment. touches_steps. Qed.

Lemma touches_animate W i now :
  "deltaTime" ∈ W -> "time" ∈ W -> "frame" ∈ W -> touches W (animate i now).
Proof.
  intros H1 H2 H3 s. unfold animate.
  destruct (loops s !! i) as [l|]; [|constructor].
  match goal with
  | |- grows _ _ (uniforms (?m s).2) => cut (touches W m); [intros Ht; apply Ht|]
  end.
  touches_steps.
Qed.

Lemma touches_startDrawing W t_start t_last t_now :
  "deltaTime" ∈ W -> "time" ∈ W -> "frame" ∈ W ->
  touches W (startDrawing t_start t_last t_now).
Proof.
  intros H1 H2 H3 s. unfold startDrawing.
  destruct (_isDrawing s); [constructor|].
  match goal with
  | |- grows _ _ (uniforms (?m s).2) => cut (touches W m); [intros Ht; apply Ht|]
  end.
  unfold startDrawing_enter. touches_steps. by apply touches_animate.
Qed.

Lemma after_grows c s : grows (written c) (uniforms s) (uniforms (after c s)).
Proof.
  destruct c; simpl.
  - apply touches_setUniform. set_solver.
  - apply touches_applyToUniform. set_solver.
  - constructor.
  - apply touches_resize; set_solver.
  - constructor.
  - constructor.
  - apply touches_startDrawing; set_solver.
  - apply touches_animate; set_solver.
  - destruct (resize_listener s); [|constructor].
    apply touches_resize; set_solver.
  - constructor.
Qed.

Lemma after_all_snoc cs c s : after_all (cs ++ [c]) s = after c (after_all cs s).
Proof. unfold after_all. by rewrite foldl_snoc. Qed.


(** Over a sequence of calls the entries that were the class's own stay
    so, and no entry becomes a primitive. *)
Lemma after_all_own cs s key :
  own_entry (uniforms s !! key) = true ->
  own_entry (uniforms (after_all cs s) !! key) = true.
Proof.
  revert s. induction cs as [|c cs IH]; intros s H; [done|].
  simpl. apply IH. eapply grows_own; [apply after_grows|done].
Qed.


(** ** What the methods leave alone *)

Lemma unchanged_bind {A B C} (f : Canvas -> C) (m : M A) (k : A -> M B) :
  unchanged f m -> (forall a, unchanged f (k a)) -> unchanged f (bind m k).
Proof.
  intros Hm Hk s. unfold bind. specialize (Hm s).
  destruct (m s) as [[a|] s1]; simpl in *; [|done].
  by rewrite Hk.
Qed.

Lemma unchanged_ret {A C} (f : Canvas -> C) (a : A) : unchanged f (ret a).
Proof. by intros s. Qed.

Lemma unchanged_gets {A C} (f : Canvas -> C) (g : Canvas -> A) : unchanged f (gets g).
Proof. by intros s. Qed.

Lemma unchanged_modify {C} (f : Canvas -> C) g :
  (forall s, f (g s) = f s) -> unchanged f (modify g).
Proof. intros H s. apply H. Qed.

Lemma unchanged_store_value {C} (f : Canvas -> C) key v :
  beside_table f -> unchanged f (store_value key v).
Proof.
  intros [Hu Hh] s. unfold store_value.
  destruct (uniforms s !! key) as [[w|[| | | | |l]]|]; simpl; auto.
Qed.

Lemma unchanged_load_value {C} (f : Canvas -> C) key :
  unchanged f (load_value key).
Proof.
  intros s. unfold load_value.
  destruct (uniforms s !! key) as [e|]; [|done].
  by destruct (entry_nullish (Some e)).
Qed.

Lemma unchanged_setUniform {C} (f : Canvas -> C) key v :
  beside_table f -> unchanged f (setUniform key v).
Proof.
  intros Hf s. unfold setUniform.
  destruct (entry_nullish (uniforms s !! key)).
  - simpl. apply Hf.
  - by apply unchanged_store_value.
Qed.

Lemma unchanged_applyToUniform {C} (f : Canvas -> C) key func :
  beside_table f -> unchanged f (applyToUniform key func).
Proof.
  intros Hf. unfold applyToUniform.
  apply unchanged_bind; [apply unchanged_gets|intros old].
  apply unchanged_bind; [apply unchanged_gets|intros h].
  by apply unchanged_setUniform.
Qed.

Ltac unchanged_steps :=
  repeat first
    [ apply unchanged_bind; [|intros ?]
    | apply unchanged_ret
    | apply unchanged_gets
    | apply unchanged_load_value
    | apply unchanged_modify; intros ?; reflexivity
    | apply unchanged_store_value; split; intros; reflexivity ].

Lemma unchanged_animate_drawing i now : unchanged _isDrawing (animate i now).
Proof.
  intros s. unfold animate. destruct (loops s !! i) as [l|]; [|done].
  match goal with
  | |- _isDrawing (?m s).2 = _ => cut (unchanged _isDrawing m); [intros Ht; apply Ht|]
  end.
  unchanged_steps.
Qed.


(** ** The methods on the class's own entries *)

Lemma own_entry_inv e : own_entry e = true -> exists v, e = Some (Wrapper v).
Proof. destruct e as [[v|v]|]; try discriminate. eauto. Qed.

Lemma store_value_own key v s :
  own_entry (uniforms s !! key) = true ->
  store_value key v s
    = (Normal tt, with_uniforms (<[key := Wrapper v]> (uniforms s)) s).
Proof.
  intros H. apply own_entry_inv in H as [w Hw].
  unfold store_value. by rewrite Hw.
Qed.

Lemma load_value_own key w s :
  uniforms s !! key = Some (Wrapper w) ->
  load_value key s = (Normal w, s).
Proof. intros H. unfold load_value. by rewrite H. Qed.

Lemma resize_own w h s :
  own_entry (uniforms s !! "screenWidth") = true ->
  own_entry (uniforms s !! "screenHeight") = true ->
  resize w h s = (Normal tt, resized w h s).
Proof.
  intros Hw Hh. unfold resize.
  erewrite bind_normal by reflexivity.
  erewrite bind_normal by reflexivity.
  erewrite bind_normal by (apply store_value_own; exact Hw).
  erewrite bind_normal.
  2:{ apply store_value_own. simpl. by rewrite lookup_insert_ne. }
  reflexivity.
Qed.

Lemma animate_own i l now count s :
  loops s !! i = Some l ->
  own_entry (uniforms s !! "deltaTime") = true ->
  own_entry (uniforms s !! "time") = true ->
  uniforms s !! "frame" = Some (Wrapper count) ->
  animate i now s = (Normal tt, animated i l now count s).
Proof.
  intros Hl Hd Ht Hf. unfold animate. rewrite Hl.
  erewrite bind_normal by reflexivity.
  erewrite bind_normal by reflexivity.
  erewrite bind_normal by (apply store_value_own; exact Hd).
  erewrite bind_normal.
  2:{ apply store_value_own. simpl. by rewrite lookup_insert_ne. }
  erewrite bind_normal by reflexivity.
  unfold increment.
  erewrite bind_normal.
  2:{ erewrite bind_normal.
      2:{ apply load_value_own. simpl.
          rewrite lookup_insert_ne by done. rewrite lookup_insert_ne by done.
          exact Hf. }
      apply store_value_own. simpl.
      rewrite lookup_insert_ne by done. rewrite lookup_insert_ne by done.
      by rewrite Hf. }
  reflexivity.
Qed.

(** ** Numbers *)




(** ** The constructor *)

Lemma install_uniforms_lookup supplied u key :
  install_uniforms supplied u !! key
    = match supplied !! key with
      | Some v => Some (Supplied v)
      | None => u !! key
      end.
Proof.
  unfold install_uniforms.
  apply (map_fold_weak_ind (fun acc m =>
    acc !! key = match m !! key with
                 | Some v => Some (Supplied v)
                 | None => u !! key
                 end)).
  - by rewrite lookup_empty.
  - intros k v m acc Hk IH.
    destruct (decide (k = key)) as [->|Hne].
    + by rewrite !lookup_insert_eq.
    + by rewrite !lookup_insert_ne.
Qed.

Lemma new_uniforms_lookup config key :
  new_uniforms config !! key
    = match supplied_at config key with
      | Some v => Some (Supplied v)
      | None => builtin_uniforms !! key
      end.
Proof.
  unfold new_uniforms, supplied_at.
  destruct (Config.uniforms config) as [supplied|]; [|done].
  apply install_uniforms_lookup.
Qed.

Lemma builtin_uniforms_own key :
  key ∈ builtin_names -> own_entry (builtin_uniforms !! key) = true.
Proof.
  unfold builtin_names. rewrite !elem_of_cons, elem_of_nil.
  intros [->|[->|[->|[->|[->|[]]]]]]; reflexivity.
Qed.


Lemma leaves_builtins_supplied config key :
  leaves_builtins config -> key ∈ builtin_names -> supplied_at config key = None.
Proof.
  intros H Hk. unfold supplied_at.
  destruct (Config.uniforms config) as [supplied|] eqn:E; [|done].
  by eapply H.
Qed.

Lemma new_uniforms_own config key :
  leaves_builtins config -> key ∈ builtin_names ->
  own_entry (new_uniforms config !! key) = true.
Proof.
  intros H Hk. rewrite new_uniforms_lookup, leaves_builtins_supplied by done.
  by apply builtin_uniforms_own.
Qed.

Lemma idle_uniforms_own config w h st key :
  leaves_builtins config -> key ∈ builtin_names ->
  own_entry (uniforms (idle config w h st) !! key) = true.
Proof.
  intros H Hk. simpl.
  eapply (grows_own ["screenWidth"; "screenHeight"]); [|by apply new_uniforms_own].
  constructor; [|by repeat constructor].
  constructor; [constructor|by repeat constructor].
Qed.

Lemma idle_frame config w h st :
  leaves_builtins config ->
  uniforms (idle config w h st) !! "frame" = Some (Wrapper (VNumber (num_of_Z 0))).
Proof.
  intros H. simpl. rewrite !lookup_insert_ne by done.
  rewrite new_uniforms_lookup, leaves_builtins_supplied; [done|done|].
  by repeat constructor.
Qed.

Lemma startDrawing_own t_start t_last t_now count s :
  _isDrawing s = false ->
  own_entry (uniforms s !! "deltaTime") = true ->
  own_entry (uniforms s !! "time") = true ->
  uniforms s !! "frame" = Some (Wrapper count) ->
  startDrawing t_start t_last t_now s
    = (Normal true,
       animated (length (loops s)) (mkLoop t_start t_last) t_now count
         (with_loops (loops s ++ [mkLoop t_start t_last]) (with_isDrawing true s))).
Proof.
  intros Hd H1 H2 H3. unfold startDrawing. rewrite Hd.
  erewrite bind_normal by reflexivity.
  erewrite bind_normal; [reflexivity|].
  apply animate_own; simpl; try done.
  by rewrite lookup_app_r, Nat.sub_diag.
Qed.

Lemma constructor_built config w h t_start t_last t_now st :
  leaves_builtins config ->
  constructor config w h t_start t_last t_now st
    = (Normal tt, built config w h t_start t_last t_now st).
Proof.
  intros H. unfold constructor, built.
  erewrite bind_normal.
  2:{ apply resize_own; apply new_uniforms_own; try done;
      by repeat constructor. }
  erewrite bind_normal by reflexivity.
  erewrite bind_normal by reflexivity.
  erewrite bind_normal by reflexivity.
  fold (idle config w h st).
  destruct (Config.autoStart config ?? true); [|reflexivity].
  erewrite bind_normal; [reflexivity|].
  rewrite (startDrawing_own _ _ _ (VNumber (num_of_Z 0))); try done.
  - apply idle_uniforms_own; [done|]. by repeat constructor.
  - apply idle_uniforms_own; [done|]. by repeat constructor.
  - by apply idle_frame.
Qed.

(** ** The loop variables *)

Lemma bind_ret_state {A B} (m : M A) (b : B) s :
  (bind m (fun _ => ret b) s).2 = (m s).2.
Proof. unfold bind. by destruct (m s) as [[a|] s1]. Qed.

Lemma startDrawing_state t_start t_last t_now s :
  _isDrawing s = false ->
  (startDrawing t_start t_last t_now s).2
    = (animate (length (loops s)) t_now
         (with_loops (loops s ++ [mkLoop t_start t_last]) (with_isDrawing true s))).2.
Proof.
  intros H. unfold startDrawing. rewrite H.
  erewrite bind_normal by reflexivity.
  apply bind_ret_state.
Qed.

Lemma after_isDrawing c s :
  _isDrawing (after c s) = _isDrawing s || is_startDrawing c.
Proof.
  destruct c; simpl; rewrite ?orb_false_r.
  - by apply unchanged_setUniform.
  - by apply unchanged_applyToUniform.
  - done.
  - cut (unchanged _isDrawing (resize newWidth newHeight)); [intros H; apply H|].
    unfold resize. unchanged_steps.
  - done.
  - done.
  - destruct (_isDrawing s) eqn:E.
    + unfold startDrawing. by rewrite E.
    + rewrite startDrawing_state by done. by rewrite unchanged_animate_drawing.
  - apply unchanged_animate_drawing.
  - destruct (resize_listener s); [|done].
    cut (unchanged _isDrawing (resize innerWidth innerHeight)); [intros H; apply H|].
    unfold resize. unchanged_steps.
  - done.
Qed.







Lemma built_uniforms_own config w h t_start t_last t_now st key :
  leaves_builtins config -> key ∈ builtin_names ->
  own_entry (uniforms (built config w h t_start t_last t_now st) !! key) = true.
Proof.
  intros H Hk. unfold built.
  destruct (Config.autoStart config ?? true).
  - simpl.
    eapply (grows_own ["screenWidth"; "screenHeight"; "deltaTime"; "time"; "frame"]);
      [|by apply new_uniforms_own].
    repeat (constructor; [|by repeat constructor]). constructor.
  - by apply idle_uniforms_own.
Qed.

(** ** Fields that only some methods assign *)

Lemma unchanged_resize {C} (f : Canvas -> C) w h :
  beside_table f ->
  (forall s r, f (with_renderer r s) = f s) ->
  (forall s c, f (with_camera c s) = f s) ->
  (forall s p sc, f (with_mesh p sc s) = f s) ->
  unchanged f (resize w h).
Proof.
  intros Hf Hr Hc Hm. unfold resize.
  repeat first
    [ apply unchanged_bind; [|intros ?]
    | by apply unchanged_store_value
    | apply unchanged_modify; intros ?; auto ].
Qed.

Lemma unchanged_animate {C} (f : Canvas -> C) i now :
  beside_table f ->
  (forall s r, f (with_renderer r s) = f s) ->
  (forall s l, f (with_loops l s) = f s) ->
  unchanged f (animate i now).
Proof.
  intros Hf Hr Hl s. unfold animate. destruct (loops s !! i) as [l|]; [|done].
  match goal with
  | |- f (?m s).2 = _ => cut (unchanged f m); [intros Ht; apply Ht|]
  end.
  repeat first
    [ apply unchanged_bind; [|intros ?]
    | apply unchanged_load_value
    | by apply unchanged_store_value
    | apply unchanged_modify; intros ?; auto ].
Qed.

Lemma unchanged_startDrawing {C} (f : Canvas -> C) t_start t_last t_now :
  beside_table f ->
  (forall s r, f (with_renderer r s) = f s) ->
  (forall s l, f (with_loops l s) = f s) ->
  (forall s b, f (with_isDrawing b s) = f s) ->
  unchanged f (startDrawing t_start t_last t_now).
Proof.
  intros Hf Hr Hl Hd s. destruct (_isDrawing s) eqn:E.
  - unfold startDrawing. by rewrite E.
  - rewrite startDrawing_state by done.
    rewrite unchanged_animate by done. by rewrite Hl, Hd.
Qed.

Lemma after_camera_origin c s : camera_origin (after c s) = camera_origin s.
Proof.
  destruct c; simpl; try done.
  - by apply unchanged_setUniform.
  - by apply unchanged_applyToUniform.
  - cut (unchanged camera_origin (resize newWidth newHeight)); [intros H; apply H|].
    unfold resize. unchanged_steps.
  - by apply unchanged_startDrawing.
  - by apply unchanged_animate.
  - destruct (resize_listener s); [|done].
    cut (unchanged camera_origin (resize innerWidth innerHeight)); [intros H; apply H|].
    unfold resize. unchanged_steps.
Qed.

Lemma after_all_camera_origin cs s :
  camera_origin (after_all cs s) = camera_origin s.
Proof.
  revert s. induction cs as [|c cs IH]; intros s; [done|].
  simpl. by rewrite IH, after_camera_origin.
Qed.

Lemma unchanged_animate_surface i now :
  unchanged (fun s => surface (_renderer s)) (animate i now).
Proof.
  intros s. unfold animate. destruct (loops s !! i) as [l|]; [|done].
  match goal with
  | |- surface (_renderer (?m s).2) = _ =>
      cut (unchanged (fun s => surface (_renderer s)) m); [intros Ht; apply Ht|]
  end.
  unchanged_steps.
Qed.

Lemma after_surface c s :
  is_resize c = false -> surface (_renderer (after c s)) = surface (_renderer s).
Proof.
  destruct c; simpl; try done; intros _.
  - by apply (unchanged_setUniform (fun s => surface (_renderer s))).
  - by apply (unchanged_applyToUniform (fun s => surface (_renderer s))).
  - destruct (_isDrawing s) eqn:E.
    + unfold startDrawing. by rewrite E.
    + rewrite startDrawing_state by done.
      by rewrite unchanged_animate_surface.
  - apply unchanged_animate_surface.
Qed.



(** ** Entries during construction

    The constructor calls [resize] and [startDrawing], which write into the
    entries and never put one into the table: a property of the entry under
    a name that is kept in the sense of [entry_kept] holds after the
    constructor if it held of the table it set up, however the constructor
    completes. *)








(** ** The accessors of the uniform table *)

Lemma get_put_property h l p v : get_property (put_property h l p v) l p = v.
Proof.
  unfold get_property, put_property, object_at.
  rewrite lookup_insert_eq. simpl. by rewrite lookup_insert_eq.
Qed.

Lemma setUniform_fresh key value s :
  entry_nullish (uniforms s !! key) = true ->
  setUniform key value s
    = (Normal tt, with_uniforms (<[key := Wrapper value]> (uniforms s)) s).
Proof. intros H. unfold setUniform. by rewrite H. Qed.


Lemma round_trip_not_plain s key value :
  plain_entry (uniforms s !! key) = false -> round_trip s key value.
Proof.
  intros H. unfold round_trip, setUniform, store_value, getUniform, gets.
  destruct (uniforms s !! key) as [[w|v]|] eqn:E; simpl.
  - eexists; split; [reflexivity|]. simpl. by rewrite lookup_insert_eq.
  - destruct v; simpl in *; try discriminate.
    + eexists; split; [reflexivity|]. simpl. by rewrite lookup_insert_eq.
    + eexists; split; [reflexivity|]. simpl. by rewrite lookup_insert_eq.
    + eexists; split; [reflexivity|]. simpl. rewrite E. simpl.
      by rewrite get_put_property.
  - eexists; split; [reflexivity|]. simpl. by rewrite lookup_insert_eq.
Qed.



(** C8.  [applyToUniform(key, func)] leaves the state, and completes, as the
    sequence [getUniform(key)], [func], [setUniform(key, ...)] does; when no
    entry is under [key] the function is applied to [undefined] and its
    result is put into the table. *)
Theorem applyToUniform_is_get_apply_set key func s :
  applyToUniform key func s = get_apply_set key func s /\
  (uniforms s !! key = None ->
   applyToUniform key func s
     = (Normal tt,
        with_uniforms (<[key := Wrapper (func (heap s) VUndefined)]> (uniforms s)) s)).
Proof.
  split; [reflexivity|].
  intros H. unfold applyToUniform.
  erewrite bind_normal by reflexivity.
  erewrite bind_normal by reflexivity.
  rewrite H. simpl. apply setUniform_fresh. by rewrite H.
Qed.





(** ** Instances whose built-in entries are the class's own *)

Lemma built_camera_origin config w h t_start t_last t_now st :
  camera_origin (built config w h t_start t_last t_now st)
    = (num_of_Z 0, num_of_Z 0).
Proof. unfold built. by destruct (Config.autoStart config ?? true). Qed.

Lemma instance_own config w h t_start t_last t_now st cs key :
  leaves_builtins config -> key ∈ builtin_names ->
  own_entry
    (uniforms (after_all cs (built config w h t_start t_last t_now st)) !! key)
    = true.
Proof. intros H Hk. apply after_all_own. by apply built_uniforms_own. Qed.

(** C2, as amended.  In every instance of a configuration that names no
    built-in uniform, after any calls, [resize(newWidth, newHeight)] completes, after
    which [getUniform] gives [newWidth] for [screenWidth] and [newHeight] for
    [screenHeight], the camera has [right = newWidth] and
    [bottom = newHeight] with [left] and [top] still [0], and the quad is at
    [(newWidth / 2, newHeight / 2, 0)] with scale [(newWidth, newHeight, 1)].
    This holds for all sizes, the positive ones among them. *)
Theorem resize_sets_sizes config w h t_start t_last t_now st cs newWidth newHeight :
  leaves_builtins config ->
  (constructor config w h t_start t_last t_now st).1 = Normal tt /\
  let s := after_all cs (constructor config w h t_start t_last t_now st).2 in
  exists s',
    resize newWidth newHeight s = (Normal tt, s') /\
    getUniform "screenWidth" s' = (Normal (VNumber newWidth), s') /\
    getUniform "screenHeight" s' = (Normal (VNumber newHeight), s') /\
    surface (_renderer s') = (newWidth, newHeight) /\
    right (_camera s') = newWidth /\
    bottom (_camera s') = newHeight /\
    left (_camera s') = num_of_Z 0 /\
    top (_camera s') = num_of_Z 0 /\
    projection (_camera s') = (num_of_Z 0, newWidth, num_of_Z 0, newHeight) /\
    mesh_position s'
      = mkVec3 (num_div newWidth 2) (num_div newHeight 2) (num_of_Z 0) /\
    mesh_scale s' = mkVec3 newWidth newHeight (num_of_Z 1).
Proof.
  intros Hcfg. rewrite constructor_built by done. split; [done|].
  simpl. set (s := after_all cs _).
  assert (Ho : camera_origin s = (num_of_Z 0, num_of_Z 0)).
  { unfold s. by rewrite after_all_camera_origin, built_camera_origin. }
  injection Ho as Hl Ht.
  exists (resized newWidth newHeight s).
  split.
  { apply resize_own; apply instance_own; try done; by repeat constructor. }
  unfold getUniform, gets. simpl.
  rewrite lookup_insert_ne by done. rewrite !lookup_insert_eq. simpl.
  rewrite Hl, Ht. done.
Qed.


(** ** One run of the loop *)




(** C7, as amended.  A call of [startDrawing] that starts the loop takes
    [startTime] from its first reading of the clock and [lastFrameTime] from
    its second, and runs the closure on these two; the two are equal exactly
    when the clock answered the same twice, and [startTime <= lastFrameTime]
    when the clock did not go back. *)
Theorem startDrawing_timestamps t_start t_last t_now s :
  _isDrawing s = false ->
  exists i l s1,
    startDrawing_enter t_start t_last s = (Normal i, s1) /\
    loops s1 !! i = Some l /\
    startTime l = t_start /\
    lastFrameTime l = t_last /\
    (startTime l = lastFrameTime l <-> t_start = t_last) /\
    (t_start <= t_last -> startTime l <= lastFrameTime l) /\
    startDrawing t_start t_last t_now s
      = (animate i t_now ;; ret true) s1.
Proof.
  intros Hd.
  exists (length (loops s)), (mkLoop t_start t_last).
  eexists. split; [reflexivity|]. simpl.
  split; [by rewrite lookup_app_r, Nat.sub_diag|].
  do 4 (split; [done|]).
  unfold startDrawing. rewrite Hd. reflexivity.
Qed.

(** ** The frame count *)







(** ** The size uniforms *)


Lemma resized_sized w h s : sized (resized w h s).
Proof.
  unfold sized. simpl. rewrite lookup_insert_ne by done.
  by rewrite !lookup_insert_eq.
Qed.

Lemma after_sized c s :
  sized s ->
  sets "screenWidth" c = false -> sets "screenHeight" c = false ->
  sized (after c s).
Proof.
  intros [Hw Hh] Hcw Hch.
  assert (Hresize : forall w h, sized (resize w h s).2).
  { intros w h. rewrite resize_own.
    - apply resized_sized.
    - by rewrite Hw.
    - by rewrite Hh. }
  assert (Hsame : is_resize c = false ->
            "screenWidth" ∉ written c -> "screenHeight" ∉ written c ->
            sized (after c s)).
  { intros Hr H1 H2. unfold sized. rewrite after_surface by done.
    rewrite !(grows_other _ _ _ _ (after_grows c s)) by done. done. }
  destruct c; simpl in Hcw, Hch; try apply Hresize;
    try (apply Hsame; [done|simpl..];
         rewrite ?not_elem_of_cons; repeat split; try done;
         try apply not_elem_of_nil).
  - intros <-. by rewrite bool_decide_eq_false in Hcw.
  - intros <-. by rewrite bool_decide_eq_false in Hch.
  - intros <-. by rewrite bool_decide_eq_false in Hcw.
  - intros <-. by rewrite bool_decide_eq_false in Hch.
  - simpl. destruct (resize_listener s); [apply Hresize|done].
Qed.





(** * Further properties of the methods *)

#[local] Abbreviation uv_load := (uv_load StringToNumber).

(** ** setUniform and applyToUniform *)

Lemma put_put_property h l p v v' :
  put_property (put_property h l p v) l p v' = put_property h l p v'.
Proof.
  unfold put_property, object_at.
  rewrite lookup_insert_eq. simpl. by rewrite !insert_insert_eq.
Qed.


(** X1.  [setUniform] throws exactly when the entry under the key is a
    boolean, a number or a string, and then it leaves the state as it was;
    in every other case it completes normally. *)
Theorem setUniform_throws_on_primitive key value s :
  (setUniform key value s).1
    = (if plain_entry (uniforms s !! key) then TypeError else Normal tt) /\
  (if plain_entry (uniforms s !! key)
   then (setUniform key value s).2 = s
   else round_trip s key value).
Proof.
  destruct (plain_entry (uniforms s !! key)) eqn:Hp.
  - unfold setUniform, store_value.
    destruct (uniforms s !! key) as [[w|[| | | | |l]]|]; by simpl in *.
  - pose proof (round_trip_not_plain s key value Hp) as Hr.
    split; [|done]. destruct Hr as (s1 & -> & _). done.
Qed.

(** X2.  The last write wins: [setUniform(key, v1)] followed by
    [setUniform(key, v2)] completes and leaves the state as
    [setUniform(key, v2)] alone does. *)
Theorem setUniform_overwrites key v1 v2 s :
  setUniform key v2 (setUniform key v1 s).2 = setUniform key v2 s.
Proof.
  unfold setUniform, store_value.
  destruct (uniforms s !! key) as [[w|[| | | | |l]]|] eqn:E; simpl;
    rewrite ?lookup_insert_eq, ?E; simpl; try done.
  - by rewrite insert_insert_eq.
  - by rewrite insert_insert_eq.
  - by rewrite insert_insert_eq.
  - by rewrite put_put_property.
  - by rewrite insert_insert_eq.
Qed.


(** X4.  When the entries under two keys are one object of the caller,
    [setUniform] through either key is seen through the other. *)
Theorem setUniform_shared_object key key' value l s :
  uniforms s !! key = Some (Supplied (VObject l)) ->
  uniforms s !! key' = Some (Supplied (VObject l)) ->
  exists s',
    setUniform key value s = (Normal tt, s') /\
    getUniform key' s' = (Normal value, s').
Proof.
  intros E E'. unfold setUniform, store_value, getUniform, gets.
  rewrite E. simpl. eexists. split; [reflexivity|]. simpl.
  rewrite E'. simpl. by rewrite get_put_property.
Qed.

(** X5.  Two calls of [applyToUniform] on one key, with functions that look
    at their argument only, complete and leave the state as one call with
    the composed function does. *)
Theorem applyToUniform_composes key (f g : Value -> Value) s :
  applyToUniform key (by_value g) (applyToUniform key (by_value f) s).2
    = applyToUniform key (by_value (fun old => g (f old))) s.
Proof.
  unfold applyToUniform, bind, getUniform, gets, setUniform, store_value, by_value.
  destruct (uniforms s !! key) as [[w|[| | | | |l]]|] eqn:E; simpl;
    rewrite ?lookup_insert_eq, ?E; simpl; try done.
  - by rewrite insert_insert_eq.
  - by rewrite insert_insert_eq.
  - by rewrite insert_insert_eq.
  - by rewrite get_put_property, put_put_property.
  - by rewrite insert_insert_eq.
Qed.

(** ** Writes into entries *)

Lemma entries_written_refl s : entries_written s s.
Proof. split; [|done]. exists (uniforms s), (heap s). by destruct s. Qed.

Lemma entries_written_trans s1 s2 s3 :
  entries_written s1 s2 -> entries_written s2 s3 -> entries_written s1 s3.
Proof.
  intros [(u & h & ->) H12] [(u' & h' & ->) H23]. split.
  - by exists u', h'.
  - intros key. by rewrite H23, H12.
Qed.

Lemma store_value_throws key v s :
  object_entry (uniforms s !! key) = false -> store_value key v s = (TypeError, s).
Proof.
  intros H. unfold store_value.
  by destruct (uniforms s !! key) as [[w|[| | | | |l]]|].
Qed.

Lemma store_value_writes key v s :
  object_entry (uniforms s !! key) = true ->
  exists s', store_value key v s = (Normal tt, s') /\ entries_written s s'.
Proof.
  intros H. unfold store_value.
  destruct (uniforms s !! key) as [[w|[| | | | |l]]|] eqn:E; try discriminate.
  - eexists. split; [reflexivity|]. split.
    + eexists _, (heap s). reflexivity.
    + intros k. simpl. destruct (decide (key = k)) as [<-|Hne].
      * by rewrite lookup_insert_eq, E.
      * by rewrite lookup_insert_ne.
  - eexists. split; [reflexivity|]. split; [|done].
    eexists (uniforms s), _. by destruct s.
Qed.

(** ** resize *)

Lemma resize_cases w h s :
  let ok := object_entry (uniforms s !! "screenWidth")
            && object_entry (uniforms s !! "screenHeight") in
  (resize w h s).1 = (if ok then Normal tt else TypeError) /\
  surface (_renderer (resize w h s).2) = (w, h) /\
  right (_camera (resize w h s).2) = w /\
  bottom (_camera (resize w h s).2) = h /\
  (if ok
   then mesh_position (resize w h s).2
          = mkVec3 (num_div w 2) (num_div h 2) (num_of_Z 0) /\
        mesh_scale (resize w h s).2 = mkVec3 w h (num_of_Z 1)
   else mesh_position (resize w h s).2 = mesh_position s /\
        mesh_scale (resize w h s).2 = mesh_scale s).
Proof.
  unfold resize.
  erewrite bind_normal by reflexivity.
  erewrite bind_normal by reflexivity.
  set (s1 := with_camera _ _).
  change (uniforms s !! "screenWidth") with (uniforms s1 !! "screenWidth").
  change (uniforms s !! "screenHeight") with (uniforms s1 !! "screenHeight").
  destruct (object_entry (uniforms s1 !! "screenWidth")) eqn:Hw; cbn [andb].
  - destruct (store_value_writes "screenWidth" (VNumber w) s1 Hw)
      as (s2 & E2 & [(u2 & h2 & ->) K2]).
    erewrite bind_normal by exact E2.
    rewrite <- (K2 "screenHeight").
    destruct (object_entry (uniforms (with_heap h2 (with_uniforms u2 s1))
                              !! "screenHeight")) eqn:Hh.
    + destruct (store_value_writes "screenHeight" (VNumber h) _ Hh)
        as (s3 & E3 & [(u3 & h3 & ->) K3]).
      erewrite bind_normal by exact E3. done.
    + erewrite bind_throw by (by apply store_value_throws). done.
  - erewrite bind_throw by (by apply store_value_throws). done.
Qed.

(** X6.  [resize] completes exactly when the entries under [screenWidth] and
    [screenHeight] are objects, and throws a [TypeError] otherwise.  It
    gives the renderer and the camera the new size first, so they have it
    in either case; the quad is moved and scaled only when [resize]
    completes. *)
Theorem resize_completes_iff_objects w h s :
  (resize w h s).1
    = (if object_entry (uniforms s !! "screenWidth")
          && object_entry (uniforms s !! "screenHeight")
       then Normal tt else TypeError) /\
  surface (_renderer (resize w h s).2) = (w, h) /\
  right (_camera (resize w h s).2) = w /\
  bottom (_camera (resize w h s).2) = h /\
  (if object_entry (uniforms s !! "screenWidth")
      && object_entry (uniforms s !! "screenHeight")
   then mesh_position (resize w h s).2
          = mkVec3 (num_div w 2) (num_div h 2) (num_of_Z 0) /\
        mesh_scale (resize w h s).2 = mkVec3 w h (num_of_Z 1)
   else mesh_position (resize w h s).2 = mesh_position s /\
        mesh_scale (resize w h s).2 = mesh_scale s).
Proof.
  pose proof (resize_cases w h s) as H. simpl in H.
  destruct H as (H1 & H2 & H3 & H4 & H5).
  repeat split; try assumption;
    destruct (object_entry (uniforms s !! "screenWidth")
              && object_entry (uniforms s !! "screenHeight"));
    tauto.
Qed.

Lemma put_property_commute h l l' p v v' :
  l <> l' ->
  put_property (put_property h l p v) l' p v'
    = put_property (put_property h l' p v') l p v.
Proof.
  intros Hne. unfold put_property, object_at.
  rewrite !lookup_insert_ne by done. by apply insert_insert_ne.
Qed.

Lemma put_property_collapse h l l' p a b c d :
  put_property (put_property (put_property (put_property h l p a) l' p b) l p c) l' p d
    = put_property (put_property h l p c) l' p d.
Proof.
  destruct (decide (l = l')) as [<-|Hne].
  - by rewrite !put_put_property.
  - rewrite (put_property_commute _ l' l) by done.
    by rewrite !put_put_property.
Qed.

Lemma size_entries_collapse (u : Uniforms) a b c d :
  <["screenHeight" := d]> (<["screenWidth" := c]>
     (<["screenHeight" := b]> (<["screenWidth" := a]> u)))
    = <["screenHeight" := d]> (<["screenWidth" := c]> u).
Proof.
  rewrite (insert_insert_ne _ "screenWidth" "screenHeight" c b) by done.
  by rewrite !insert_insert_eq.
Qed.

(** X7.  The last [resize] wins: [resize(w1, h1)] followed by
    [resize(w2, h2)] completes and leaves the state as [resize(w2, h2)]
    alone does, whatever the entries under the size names are. *)
Theorem resize_overwrites w1 h1 w2 h2 s :
  resize w2 h2 (resize w1 h1 s).2 = resize w2 h2 s.
Proof.
  unfold resize, bind, modify, store_value.
  destruct (uniforms s !! "screenWidth") as [[a|[| |?|?|?|l]]|] eqn:Ew;
    destruct (uniforms s !! "screenHeight") as [[a'|[| |?|?|?|l']]|] eqn:Eh;
    simpl;
    repeat (rewrite ?lookup_insert_eq, ?(lookup_insert_ne _ "screenWidth"),
              ?(lookup_insert_ne _ "screenHeight"), ?Ew, ?Eh by done; simpl);
    rewrite ?size_entries_collapse, ?insert_insert_eq,
      ?put_property_collapse, ?put_put_property;
    reflexivity.
Qed.

(** ** A run of the loop on any entries *)

Lemma load_value_object key s :
  object_entry (uniforms s !! key) = true ->
  exists v, load_value key s = (Normal v, s).
Proof.
  intros H. unfold load_value.
  destruct (uniforms s !! key) as [[w|[| |?|?|?|l]]|]; try discriminate; eauto.
Qed.

Lemma increment_throws key s :
  object_entry (uniforms s !! key) = false -> increment key s = (TypeError, s).
Proof.
  intros H. unfold increment, bind, load_value, store_value.
  destruct (uniforms s !! key) as [[w|[| |?|?|?|l]]|] eqn:E;
    simpl in *; rewrite ?E; done.
Qed.

Lemma increment_writes key s :
  object_entry (uniforms s !! key) = true ->
  exists s', increment key s = (Normal tt, s') /\ entries_written s s'.
Proof.
  intros H. unfold increment.
  destruct (load_value_object key s H) as (v & Hv).
  erewrite bind_normal by exact Hv.
  by apply store_value_writes.
Qed.

Lemma animate_cases i l now s :
  loops s !! i = Some l ->
  let drawable := object_entry (uniforms s !! "deltaTime")
                  && object_entry (uniforms s !! "time") in
  let ok := drawable && object_entry (uniforms s !! "frame") in
  (animate i now s).1 = (if ok then Normal tt else TypeError) /\
  clear_color (_renderer (animate i now s).2) = Some (_clearColor s) /\
  cleared (_renderer (animate i now s).2) = S (cleared (_renderer s)) /\
  (if drawable
   then exists f,
          rendered (_renderer (animate i now s).2) = f :: rendered (_renderer s) /\
          frame_clear f = Some (_clearColor s) /\
          frame_camera f = _camera s
   else rendered (_renderer (animate i now s).2) = rendered (_renderer s)) /\
  loops (animate i now s).2
    = (if ok then <[i := mkLoop (startTime l) now]> (loops s) else loops s) /\
  (forall key,
     object_entry (uniforms (animate i now s).2 !! key)
       = object_entry (uniforms s !! key)).
Proof.
  intros Hl. unfold animate. rewrite Hl.
  erewrite bind_normal by reflexivity.
  erewrite bind_normal by reflexivity.
  set (s1 := with_renderer (renderer_clear _) _).
  change (uniforms s !! "deltaTime") with (uniforms s1 !! "deltaTime").
  change (uniforms s !! "time") with (uniforms s1 !! "time").
  change (uniforms s !! "frame") with (uniforms s1 !! "frame").
  assert (Hkeys : forall key,
            object_entry (uniforms s !! key) = object_entry (uniforms s1 !! key))
    by done.
  destruct (object_entry (uniforms s1 !! "deltaTime")) eqn:Hd; cbn [andb].
  2:{ erewrite bind_throw by (by apply store_value_throws). done. }
  destruct (store_value_writes "deltaTime"
              (VNumber (num_div (num_of_Z (now - lastFrameTime l)) 1000)) s1 Hd)
    as (s2 & E2 & [(u2 & h2 & ->) K2]).
  erewrite bind_normal by exact E2.
  rewrite <- (K2 "time"), <- (K2 "frame").
  set (s2 := with_heap h2 (with_uniforms u2 s1)) in *.
  destruct (object_entry (uniforms s2 !! "time")) eqn:Ht; cbn [andb].
  2:{ erewrite bind_throw by (by apply store_value_throws).
      repeat split; try done. }
  destruct (store_value_writes "time"
              (VNumber (num_div (num_of_Z (now - startTime l)) 1000)) s2 Ht)
    as (s3 & E3 & [(u3 & h3 & ->) K3]).
  erewrite bind_normal by exact E3.
  rewrite <- (K3 "frame").
  set (s3 := with_heap h3 (with_uniforms u3 s2)) in *.
  erewrite bind_normal by reflexivity.
  set (s4 := with_renderer (renderer_render s3) s3).
  change (uniforms s3 !! "frame") with (uniforms s4 !! "frame").
  destruct (object_entry (uniforms s4 !! "frame")) eqn:Hf.
  - destruct (increment_writes "frame" s4 Hf) as (s5 & E5 & [(u5 & h5 & ->) K5]).
    erewrite bind_normal by exact E5.
    repeat split; try done.
    + eexists. split; [reflexivity|]. done.
    + intros key. by rewrite Hkeys, <- K2, <- K3, <- K5.
  - erewrite bind_throw by (by apply increment_throws).
    repeat split; try done.
    + eexists. split; [reflexivity|]. done.
    + intros key. by rewrite Hkeys, <- K2, <- K3.
Qed.


(** ** The constructor on any configuration *)






(** The instance when the constructor comes to [autoStart], from the state
    [resize] left. *)
Lemma constructor_steps config w h t_start t_last t_now st :
  let s1 := (resize w h (allocated config st)).2 in
  let s2 := with_isDrawing false
              (with_clearColor (Config.clearColor config ?? num_of_Z 5592405)
                 (with_resize_listener (Config.autoResize config ?? true) s1)) in
  (resize w h (allocated config st)).1 = Normal tt ->
  constructor config w h t_start t_last t_now st
    = if Config.autoStart config ?? true
      then (startDrawing t_start t_last t_now ;; ret tt) s2
      else (Normal tt, s2).
Proof.
  intros s1 s2 Hr. subst s2 s1. unfold constructor, bind at 1.
  destruct (resize w h (allocated config st)) as [[[]|] s'];
    [|discriminate Hr].
  cbn [snd].
  erewrite bind_normal by reflexivity.
  erewrite bind_normal by reflexivity.
  erewrite bind_normal by reflexivity.
  by destruct (Config.autoStart config ?? true).
Qed.

Lemma constructor_resize_throws config w h t_start t_last t_now st :
  (resize w h (allocated config st)).1 = TypeError ->
  (constructor config w h t_start t_last t_now st).1 = TypeError.
Proof.
  intros Hr. unfold constructor, bind at 1.
  by destruct (resize w h (allocated config st)) as [[[]|] s'].
Qed.


(** ** What the constructor fixes *)

Lemma construction_options_beside : beside_table construction_options.
Proof. by split. Qed.

Lemma after_construction_options c s :
  construction_options (after c s) = construction_options s.
Proof.
  destruct c; simpl; try done.
  - by apply unchanged_setUniform.
  - by apply unchanged_applyToUniform.
  - by apply unchanged_resize.
  - by apply unchanged_startDrawing.
  - by apply unchanged_animate.
  - destruct (resize_listener s); [|done]. by apply unchanged_resize.
Qed.

Lemma after_all_construction_options cs s :
  construction_options (after_all cs s) = construction_options s.
Proof.
  revert s. induction cs as [|c cs IH]; intros s; [done|].
  simpl. by rewrite IH, after_construction_options.
Qed.

Lemma after_clearColor c s :
  _clearColor (after c s)
    = match c with
      | Call_setClearColor newColor => newColor
      | _ => _clearColor s
      end.
Proof.
  destruct c; simpl; try done.
  - by apply (unchanged_setUniform _clearColor).
  - by apply (unchanged_applyToUniform _clearColor).
  - by apply (unchanged_resize _clearColor).
  - by apply (unchanged_startDrawing _clearColor).
  - by apply (unchanged_animate _clearColor).
  - destruct (resize_listener s); [|done]. by apply (unchanged_resize _clearColor).
Qed.

Lemma after_all_clearColor cs s :
  _clearColor (after_all cs s) = clearColor_after (_clearColor s) cs.
Proof.
  revert s. induction cs as [|c cs IH]; intros s; [done|].
  simpl. rewrite IH, after_clearColor. by destruct c.
Qed.

Lemma after_startDrawing t_start t_last t_now s :
  after (Call_startDrawing t_start t_last t_now) s
    = (startDrawing t_start t_last t_now s).2.
Proof. reflexivity. Qed.

Lemma constructor_fields config w h t_start t_last t_now st :
  (constructor config w h t_start t_last t_now st).1 = Normal tt ->
  construction_options (constructor config w h t_start t_last t_now st).2
    = (Config.autoAppend config ?? true, Config.autoResize config ?? true,
       Config.fragmentShader config ?? _DEFAULT_FRAGMENT_SHADER,
       Config._vertexShader config ?? _DEFAULT_VERTEX_SHADER) /\
  _clearColor (constructor config w h t_start t_last t_now st).2
    = (Config.clearColor config ?? num_of_Z 5592405) /\
  _isDrawing (constructor config w h t_start t_last t_now st).2
    = (Config.autoStart config ?? true).
Proof.
  intros Hc.
  destruct ((resize w h (allocated config st)).1) as [[]|] eqn:Hr.
  2:{ rewrite constructor_resize_throws in Hc by done. discriminate Hc. }
  rewrite constructor_steps by done.
  assert (Ho : construction_options (resize w h (allocated config st)).2
               = construction_options (allocated config st))
    by (by apply unchanged_resize).
  injection Ho as Ho1 _ Ho3 Ho4.
  destruct (Config.autoStart config ?? true).
  - rewrite bind_ret_state, <- after_startDrawing.
    rewrite after_construction_options, after_clearColor, after_isDrawing.
    unfold construction_options. simpl. by rewrite Ho1, Ho3, Ho4.
  - unfold construction_options. simpl. by rewrite Ho1, Ho3, Ho4.
Qed.

Lemma construction_options_persist_aux config w h t_start t_last t_now st cs :
  (constructor config w h t_start t_last t_now st).1 = Normal tt ->
  construction_options
    (after_all cs (constructor config w h t_start t_last t_now st).2)
    = (Config.autoAppend config ?? true, Config.autoResize config ?? true,
       Config.fragmentShader config ?? _DEFAULT_FRAGMENT_SHADER,
       Config._vertexShader config ?? _DEFAULT_VERTEX_SHADER).
Proof.
  intros Hc. rewrite after_all_construction_options.
  by destruct (constructor_fields config w h t_start t_last t_now st Hc).
Qed.

(** X10.  What the constructor took from the configuration stays for the
    life of the instance: after any calls the canvas is in the document
    exactly if [autoAppend] said so (by default it is), the window's resize
    is listened to exactly if [autoResize] said so (by default it is), and
    the shader sources are the configured ones or the defaults.  No method
    assigns them. *)
Theorem construction_options_persist config w h t_start t_last t_now st cs :
  (constructor config w h t_start t_last t_now st).1 = Normal tt ->
  construction_options
    (after_all cs (constructor config w h t_start t_last t_now st).2)
    = (Config.autoAppend config ?? true, Config.autoResize config ?? true,
       Config.fragmentShader config ?? _DEFAULT_FRAGMENT_SHADER,
       Config._vertexShader config ?? _DEFAULT_VERTEX_SHADER).
Proof.
  intros Hc.
  rewrite <- (construction_options_persist_aux config w h t_start t_last t_now st []
               Hc).
  apply after_all_construction_options.
Qed.

(** X11.  [getClearColor] gives the colour of the last [setClearColor], and
    the configured colour, [0x555555] by default, when there was none; no
    other call changes it. *)
Theorem getClearColor_last_set config w h t_start t_last t_now st cs :
  (constructor config w h t_start t_last t_now st).1 = Normal tt ->
  let s := after_all cs (constructor config w h t_start t_last t_now st).2 in
  getClearColor s
    = (Normal (clearColor_after (Config.clearColor config ?? num_of_Z 5592405) cs),
       s).
Proof.
  intros Hc s. unfold getClearColor, gets. unfold s.
  rewrite after_all_clearColor.
  destruct (constructor_fields config w h t_start t_last t_now st Hc)
    as (_ & -> & _).
  done.
Qed.

(** X12.  [setClearColor] only stores the colour: the renderer is left as it
    is.  The next run of a registered closure hands the colour to the
    renderer before it clears, and the frame it draws, if it draws one, is
    drawn on that colour. *)
Theorem setClearColor_next_frame newColor i l now s :
  loops s !! i = Some l ->
  _renderer (setClearColor newColor s).2 = _renderer s /\
  clear_color (_renderer (animate i now (setClearColor newColor s).2).2)
    = Some newColor /\
  (rendered (_renderer (animate i now (setClearColor newColor s).2).2)
     = rendered (_renderer s) \/
   exists f,
     rendered (_renderer (animate i now (setClearColor newColor s).2).2)
       = f :: rendered (_renderer s) /\
     frame_clear f = Some newColor).
Proof.
  intros Hl. split; [done|].
  destruct (animate_cases i l now (setClearColor newColor s).2 Hl)
    as (_ & H2 & _ & H4 & _).
  split; [exact H2|]. cbv zeta in H4.
  destruct (_ && _).
  - right. destruct H4 as (f & Hf & Hc & _). by exists f.
  - by left.
Qed.

(** X13.  A resize of the window reaches the instance exactly if
    [autoResize] said so (by default it does).  If it does, the renderer has
    the window's new size afterwards and [getUniform] gives it for
    [screenWidth] and [screenHeight]; if not, the event changes nothing at
    all.  This is for configurations that name no built-in uniform. *)
Theorem window_resize_by_option
    config w h t_start t_last t_now st cs innerWidth innerHeight :
  leaves_builtins config ->
  let s := after_all cs (constructor config w h t_start t_last t_now st).2 in
  let s' := after (Host_resize innerWidth innerHeight) s in
  if Config.autoResize config ?? true
  then surface (_renderer s') = (innerWidth, innerHeight) /\
       getUniform "screenWidth" s' = (Normal (VNumber innerWidth), s') /\
       getUniform "screenHeight" s' = (Normal (VNumber innerHeight), s')
  else s' = s.
Proof.
  intros Hcfg s s'.
  assert (Hc : (constructor config w h t_start t_last t_now st).1 = Normal tt)
    by (by rewrite constructor_built).
  pose proof (construction_options_persist_aux config w h t_start t_last t_now st cs Hc)
    as Ho.
  injection Ho as _ Ho _ _. fold s in Ho.
  unfold s'. simpl. rewrite Ho.
  destruct (Config.autoResize config ?? true); [|done].
  rewrite resize_own.
  - unfold getUniform, gets. simpl.
    rewrite lookup_insert_ne by done. by rewrite !lookup_insert_eq.
  - unfold s. rewrite constructor_built by done.
    apply instance_own; [done|by repeat constructor].
  - unfold s. rewrite constructor_built by done.
    apply instance_own; [done|by repeat constructor].
Qed.

(** ** Objects shared with the caller *)

(** X14.  An object that the configuration supplied stays the caller's: when
    the caller writes its [value], [getUniform] gives the new value under
    every key whose entry is that object.  The objects the class made itself
    are out of the caller's reach: whatever the caller writes into its own
    objects, [getUniform] gives what it gave under their keys. *)
Theorem caller_write_is_seen key key' l l' p v v' s :
  uniforms s !! key = Some (Supplied (VObject l)) ->
  own_entry (uniforms s !! key') = true ->
  getUniform key (after (Caller_write l "value" v) s)
    = (Normal v, after (Caller_write l "value" v) s) /\
  getUniform key' (after (Caller_write l' p v') s)
    = ((getUniform key' s).1, after (Caller_write l' p v') s).
Proof.
  intros E Hown. unfold getUniform, gets. simpl. split.
  - rewrite E. simpl. by rewrite get_put_property.
  - apply own_entry_inv in Hown as [w ->]. done.
Qed.

(** ** Entries stay *)

Lemma grows_object_entry W u u' key :
  grows W u u' ->
  object_entry (u !! key) = true -> object_entry (u' !! key) = true.
Proof.
  intros H Hk. induction H as [|u u' k v _ IH Hin]; [done|].
  destruct (decide (k = key)) as [->|Hne].
  - by rewrite lookup_insert_eq.
  - rewrite lookup_insert_ne; auto.
Qed.

(** X15.  No call removes an entry or turns an object into something else:
    a key under which the table has an object, one of the class's own or
    one of the caller's, has an object under it after any sequence of calls
    and events, so that [setUniform] for it keeps completing. *)
Theorem object_entries_stay cs key value s :
  object_entry (uniforms s !! key) = true ->
  object_entry (uniforms (after_all cs s) !! key) = true /\
  (setUniform key value (after_all cs s)).1 = Normal tt.
Proof.
  intros H.
  assert (Hs : object_entry (uniforms (after_all cs s) !! key) = true).
  { revert s H. induction cs as [|c cs IH]; intros s H; [done|].
    simpl. apply IH. eapply grows_object_entry; [apply after_grows|done]. }
  split; [done|].
  unfold setUniform, store_value.
  by destruct (uniforms (after_all cs s) !! key) as [[w|[| |?|?|?|l0]]|].
Qed.

(** ** Starting the loop *)

(** X16.  A call of [startDrawing] leaves the flag set however it completes,
    so that every later call returns [false] and changes nothing: the loop
    is never started twice, and a start that threw is not tried again. *)
Theorem startDrawing_twice t1 t2 t3 t1' t2' t3' s :
  _isDrawing (startDrawing t1 t2 t3 s).2 = true /\
  startDrawing t1' t2' t3' (startDrawing t1 t2 t3 s).2
    = (Normal false, (startDrawing t1 t2 t3 s).2).
Proof.
  assert (H : _isDrawing (startDrawing t1 t2 t3 s).2 = true).
  { rewrite <- after_startDrawing, after_isDrawing. apply orb_true_r. }
  split; [done|].
  unfold startDrawing at 1. by rewrite H.
Qed.



(** ** Every frame fits the size of its moment *)

Lemma after_camera c s : is_resize c = false -> _camera (after c s) = _camera s.
Proof.
  destruct c; simpl; try done; intros _.
  - by apply (unchanged_setUniform _camera).
  - by apply (unchanged_applyToUniform _camera).
  - by apply (unchanged_startDrawing _camera).
  - by apply (unchanged_animate _camera).
Qed.

Lemma after_rendered c s :
  is_startDrawing c = false -> is_frame c = false ->
  rendered (_renderer (after c s)) = rendered (_renderer s).
Proof.
  destruct c; simpl; try done; intros _ _.
  - by apply (unchanged_setUniform (fun s => rendered (_renderer s))).
  - by apply (unchanged_applyToUniform (fun s => rendered (_renderer s))).
  - cut (unchanged (fun s => rendered (_renderer s)) (resize newWidth newHeight));
      [intros H; apply H|].
    unfold resize. unchanged_steps.
  - destruct (resize_listener s); [|done].
    cut (unchanged (fun s => rendered (_renderer s)) (resize innerWidth innerHeight));
      [intros H; apply H|].
    unfold resize. unchanged_steps.
Qed.

Lemma animated_fitted i l now count s :
  fitted s -> fitted (animated i l now count s).
Proof.
  intros ([Hw Hh] & Hr & Hb & Hfs). unfold fitted, sized, animated, timed.
  cbn [uniforms _renderer surface rendered _camera].
  rewrite !(lookup_insert_ne _ _ "screenWidth") by done.
  rewrite !(lookup_insert_ne _ _ "screenHeight") by done.
  do 3 (split; [done|]). constructor; [|done].
  unfold frame_fits, drawn, timed. cbn [frame_uniforms frame_camera].
  rewrite !lookup_fmap.
  rewrite !(lookup_insert_ne _ _ "screenWidth") by done.
  rewrite !(lookup_insert_ne _ _ "screenHeight") by done.
  by rewrite Hw, Hh, Hr, Hb.
Qed.

Lemma after_fitted c s :
  fitted s ->
  own_entry (uniforms s !! "deltaTime") = true ->
  own_entry (uniforms s !! "time") = true ->
  own_entry (uniforms s !! "frame") = true ->
  sets "screenWidth" c = false -> sets "screenHeight" c = false ->
  fitted (after c s).
Proof.
  intros Hfit Hd Ht Hf Hcw Hch.
  pose proof Hfit as (Hs & Hr & Hb & Hfs).
  apply own_entry_inv in Hf as [count Hf].
  assert (Hsame : is_resize c = false -> is_startDrawing c = false ->
            is_frame c = false -> fitted (after c s)).
  { intros H1 H2 H3. unfold fitted.
    rewrite after_camera, after_surface, after_rendered by done.
    split; [by apply after_sized|done]. }
  assert (Hresize : forall w h, fitted (resize w h s).2).
  { intros w h. destruct Hs as [Hw Hh]. rewrite resize_own.
    - split; [apply resized_sized|]. done.
    - by rewrite Hw.
    - by rewrite Hh. }
  destruct c; try (by apply Hsame); try apply Hresize.
  - simpl. destruct (_isDrawing s) eqn:E.
    + unfold startDrawing. by rewrite E.
    + rewrite (startDrawing_own _ _ _ count) by done.
      by apply animated_fitted.
  - simpl. destruct (loops s !! i) as [l|] eqn:El.
    + rewrite (animate_own i l now count) by done. by apply animated_fitted.
    + unfold animate. by rewrite El.
  - simpl. destruct (resize_listener s); [apply Hresize|done].
Qed.

Lemma built_fitted config w h t_start t_last t_now st :
  fitted (built config w h t_start t_last t_now st).
Proof.
  assert (Hidle : fitted (idle config w h st)).
  { split; [|done]. unfold sized. simpl.
    rewrite lookup_insert_ne by done. by rewrite !lookup_insert_eq. }
  unfold built. destruct (Config.autoStart config ?? true); [|done].
  by apply animated_fitted.
Qed.

(** X19.  In an instance of a configuration that names no built-in uniform,
    as long as the caller does not set the size uniforms, every frame ever
    drawn was drawn with [screenWidth] and [screenHeight] at the [right]
    and [bottom] bounds of the camera it was drawn through, and these are
    the size of the renderer's canvas: no frame sees a stale size, however
    resizes and frames interleave. *)
Theorem frames_fit_their_size config w h t_start t_last t_now st cs :
  leaves_builtins config ->
  Forall (fun c => sets "screenWidth" c = false /\
                   sets "screenHeight" c = false) cs ->
  let s := after_all cs (constructor config w h t_start t_last t_now st).2 in
  Forall frame_fits (rendered (_renderer s)) /\
  right (_camera s) = (surface (_renderer s)).1 /\
  bottom (_camera s) = (surface (_renderer s)).2.
Proof.
  intros Hcfg Hcs. rewrite constructor_built by done. simpl.
  cut (fitted (after_all cs (built config w h t_start t_last t_now st))).
  { intros (_ & Hr & Hb & Hfs). done. }
  induction cs as [|c cs IH] using rev_ind; [apply built_fitted|].
  apply Forall_app in Hcs as [Hcs Hc].
  apply Forall_singleton in Hc as [Hw Hh].
  rewrite after_all_snoc.
  apply after_fitted; try done; try (by apply IH);
    apply instance_own; try done; by repeat constructor.
Qed.

(** ** The example *)

Lemma uv_leaves_builtins : leaves_builtins uv_config.
Proof. intros supplied key H. discriminate H. Qed.

(** X20.  Whatever the size of the window, the clock and the store, the
    example's [load] listener completes and leaves a canvas that is in the
    document, follows the window's resizes, runs the example's fragment
    shader behind the default vertex shader, and has its loop started; its
    first frame is drawn already, on the default colour [0x555555], with the
    size uniforms at the window's size and [frame] at [0]. *)
Theorem uv_example_starts innerWidth innerHeight t_start t_last t_now st :
  exists s f,
    uv_load innerWidth innerHeight t_start t_last t_now st = (Normal tt, s) /\
    construction_options s
      = (true, true, _UV_FRAGMENT_SHADER, _DEFAULT_VERTEX_SHADER) /\
    _isDrawing s = true /\
    loops s = [mkLoop t_start t_now] /\
    rendered (_renderer s) = [f] /\
    frame_clear f = Some (num_of_Z 5592405) /\
    frame_uniforms f !! "screenWidth" = Some (VNumber innerWidth) /\
    frame_uniforms f !! "screenHeight" = Some (VNumber innerHeight) /\
    frame_uniforms f !! "time" = Some (VNumber (elapsed t_start t_now)) /\
    frame_uniforms f !! "deltaTime" = Some (VNumber (elapsed t_last t_now)) /\
    frame_uniforms f !! "frame" = Some (VNumber (num_of_Z 0)) /\
    getUniform "frame" s = (Normal (VNumber (num_of_Z 1)), s).
Proof.
  unfold uv_load. rewrite (constructor_built uv_config) by apply uv_leaves_builtins.
  eexists _, _. split; [reflexivity|].
  unfold built, uv_config. cbn [Config.autoStart nullish_or default].
  do 4 (split; [reflexivity|]).
  unfold getUniform, gets, animated, drawn, timed, elapsed.
  cbn [frame_clear frame_uniforms uniforms heap _clearColor with_loops
       with_isDrawing idle with_clearColor with_resize_listener resized
       allocated new_uniforms Config.uniforms Config.clearColor nullish_or default].
  split; [reflexivity|].
  rewrite !lookup_fmap. unfold builtin_uniforms.
  repeat split;
    repeat first [rewrite lookup_insert_eq | rewrite lookup_insert_ne by done];
    reflexivity.
Qed.

(** ** The table the constructor leaves *)


End Properties.

(** * The properties at instances *)

Lemma empty_leaves_builtins : leaves_builtins Config.empty.
Proof. intros supplied key H. discriminate H. Defined.


Example default_canvas_frame :
  (getUniform "frame" default_canvas).1 = Normal (VNumber (num_of_Z 1)).
Proof. vm_compute. reflexivity. Qed.

Example default_canvas_loops : loops default_canvas = [mkLoop 1000 1002].
Proof. vm_compute. reflexivity. Qed.

Example plain_canvas_speed :
  (getUniform "speed" plain_canvas).1 = Normal VUndefined.
Proof. vm_compute. reflexivity. Qed.

Example plain_canvas_tint :
  (getUniform "tint" plain_canvas).1 = Normal (VNumber (num_of_Z 1)).
Proof. vm_compute. reflexivity. Qed.


(** C2, at an instance: the default canvas resized to 1024 by 768. *)
Lemma resize_sets_sizes_witness :
  leaves_builtins Config.empty /\
  exists s',
    resize (num_of_Z 1024) (num_of_Z 768) default_canvas = (Normal tt, s') /\
    getUniform "screenWidth" s' = (Normal (VNumber (num_of_Z 1024)), s') /\
    getUniform "screenHeight" s' = (Normal (VNumber (num_of_Z 768)), s') /\
    mesh_position s' = mkVec3 (num_of_Z 512) (num_of_Z 384) (num_of_Z 0).
Proof.
  split; [exact empty_leaves_builtins|].
  destruct (resize_sets_sizes not_a_numeral Config.empty
              (num_of_Z 800) (num_of_Z 600) 1000 1001 1002 ∅ []
              (num_of_Z 1024) (num_of_Z 768) empty_leaves_builtins)
    as (_ & s' & H1 & H2 & H3 & _ & _ & _ & _ & _ & _ & H4 & _).
  exists s'. repeat split; assumption.
Defined.







(** C7, at an instance: a canvas built with [autoStart: false]. *)
Lemma startDrawing_timestamps_witness :
  _isDrawing manual_canvas = false /\
  exists i l s1,
    startDrawing_enter 1000 1001 manual_canvas = (Normal i, s1) /\
    loops s1 !! i = Some l /\
    startTime l = 1000 /\ lastFrameTime l = 1001 /\
    startTime l <= lastFrameTime l.
Proof.
  split; [vm_compute; reflexivity|].
  destruct (startDrawing_timestamps not_a_numeral 1000 1001 1001 manual_canvas)
    as (i & l & s1 & H1 & H2 & H3 & H4 & _ & H6 & _).
  - vm_compute. reflexivity.
  - exists i, l, s1. repeat split; try assumption. apply H6. discriminate.
Defined.

(** C7, as the specification states it, fails when the clock moves between
    the two readings: with 1000 and then 1001 the loop starts with
    [startTime = 1000] and [lastFrameTime = 1001], and its first frame, at
    1001, is drawn with [time = 0.001] and [deltaTime = 0]. *)
Lemma startDrawing_timestamps_differ :
  exists l f s',
    (startDrawing_enter 1000 1001 manual_canvas).1 = Normal 0%nat /\
    loops (startDrawing_enter 1000 1001 manual_canvas).2 !! 0%nat = Some l /\
    startTime l <> lastFrameTime l /\
    startDrawing not_a_numeral 1000 1001 1001 manual_canvas = (Normal true, s') /\
    rendered (_renderer s') = [f] /\
    frame_uniforms f !! "time" = Some (VNumber (Finite (1 # 1000))) /\
    frame_uniforms f !! "deltaTime" = Some (VNumber (Finite (0 # 1))).
Proof.
  exists (mkLoop 1000 1001). eexists. eexists.
  split; [vm_compute; reflexivity|].
  split; [vm_compute; reflexivity|].
  split; [discriminate|].
  split; [vm_compute; reflexivity|].
  split; [reflexivity|].
  split; vm_compute; reflexivity.
Qed.

(** C8, at an instance: doubling a uniform that was never set, on the
    default canvas; the function is handed [undefined]. *)
Lemma applyToUniform_is_get_apply_set_witness :
  uniforms default_canvas !! "zoom" = None /\
  applyToUniform "zoom" one_if_undefined default_canvas
    = get_apply_set "zoom" one_if_undefined default_canvas /\
  (getUniform "zoom" (applyToUniform "zoom" one_if_undefined default_canvas).2).1
    = Normal (VNumber (num_of_Z 1)).
Proof.
  assert (H0 : uniforms default_canvas !! "zoom" = None).
  { vm_compute. reflexivity. }
  destruct (applyToUniform_is_get_apply_set "zoom" one_if_undefined default_canvas)
    as (H1 & H2).
  split; [exact H0|]. split; [exact H1|].
  rewrite (H2 H0). vm_compute. reflexivity.
Defined.




(** C2, as the specification states it, fails on the instance of
    [{ uniforms: { screenWidth: t, screenHeight: t } }]: both size uniforms
    are the one object [t], and after [resize(1024, 768)] the width uniform
    is 768. *)
Lemma resize_shared_size_entry :
  (constructor not_a_numeral shared_config
     (num_of_Z 800) (num_of_Z 600) 1000 1001 1002 shared_store).1 = Normal tt /\
  (resize (num_of_Z 1024) (num_of_Z 768) shared_canvas).1 = Normal tt /\
  (getUniform "screenWidth"
     (resize (num_of_Z 1024) (num_of_Z 768) shared_canvas).2).1
    = Normal (VNumber (num_of_Z 768)) /\
  VNumber (num_of_Z 768) <> VNumber (num_of_Z 1024).
Proof.
  split; [vm_compute; reflexivity|].
  split; [vm_compute; reflexivity|].
  split; [vm_compute; reflexivity|].
  intros H. vm_compute in H. discriminate H.
Qed.



(** * The further properties at instances *)

Lemma fixed_leaves_builtins : leaves_builtins fixed_config.
Proof. intros supplied key H. discriminate H. Defined.


(** X4, at an instance: the canvas of
    [{ uniforms: { screenWidth: t, screenHeight: t } }]. *)
Lemma setUniform_shared_object_witness :
  uniforms shared_canvas !! "screenWidth" = Some (Supplied (VObject 0%nat)) /\
  uniforms shared_canvas !! "screenHeight" = Some (Supplied (VObject 0%nat)) /\
  exists s',
    setUniform "screenWidth" (VNumber (num_of_Z 7)) shared_canvas = (Normal tt, s') /\
    getUniform "screenHeight" s' = (Normal (VNumber (num_of_Z 7)), s').
Proof.
  assert (H1 : uniforms shared_canvas !! "screenWidth"
               = Some (Supplied (VObject 0%nat))).
  { vm_compute. reflexivity. }
  assert (H2 : uniforms shared_canvas !! "screenHeight"
               = Some (Supplied (VObject 0%nat))).
  { vm_compute. reflexivity. }
  split; [exact H1|]. split; [exact H2|].
  exact (setUniform_shared_object "screenWidth" "screenHeight"
           (VNumber (num_of_Z 7)) 0%nat shared_canvas H1 H2).
Defined.


(** X10, at an instance: the example's canvas after two frames and a
    resize. *)
Lemma construction_options_persist_witness :
  (constructor not_a_numeral uv_config
     (num_of_Z 800) (num_of_Z 600) 1000 1001 1002 ∅).1 = Normal tt /\
  construction_options
    (after_all not_a_numeral frames_and_resize
       (constructor not_a_numeral uv_config
          (num_of_Z 800) (num_of_Z 600) 1000 1001 1002 ∅).2)
    = (true, true, _UV_FRAGMENT_SHADER, _DEFAULT_VERTEX_SHADER).
Proof.
  assert (Hc : (constructor not_a_numeral uv_config
                  (num_of_Z 800) (num_of_Z 600) 1000 1001 1002 ∅).1 = Normal tt).
  { vm_compute. reflexivity. }
  split; [exact Hc|].
  exact (construction_options_persist not_a_numeral uv_config
           (num_of_Z 800) (num_of_Z 600) 1000 1001 1002 ∅ frames_and_resize Hc).
Defined.

(** X11, at an instance: the default canvas after [setClearColor(0xff)] and
    a frame. *)
Lemma getClearColor_last_set_witness :
  (constructor not_a_numeral Config.empty
     (num_of_Z 800) (num_of_Z 600) 1000 1001 1002 ∅).1 = Normal tt /\
  (getClearColor (after_all not_a_numeral recolour_and_frame default_canvas)).1
    = Normal (num_of_Z 255).
Proof.
  assert (Hc : (constructor not_a_numeral Config.empty
                  (num_of_Z 800) (num_of_Z 600) 1000 1001 1002 ∅).1 = Normal tt).
  { vm_compute. reflexivity. }
  split; [exact Hc|].
  unfold default_canvas.
  rewrite (getClearColor_last_set not_a_numeral Config.empty
             (num_of_Z 800) (num_of_Z 600) 1000 1001 1002 ∅ recolour_and_frame Hc).
  vm_compute. reflexivity.
Defined.

(** X12, at an instance: the default canvas. *)
Lemma setClearColor_next_frame_witness :
  loops default_canvas !! 0%nat = Some (mkLoop 1000 1002) /\
  clear_color
    (_renderer (animate not_a_numeral 0 1018
                  (setClearColor (num_of_Z 255) default_canvas).2).2)
    = Some (num_of_Z 255).
Proof.
  assert (Hl : loops default_canvas !! 0%nat = Some (mkLoop 1000 1002)).
  { vm_compute. reflexivity. }
  split; [exact Hl|].
  destruct (setClearColor_next_frame not_a_numeral (num_of_Z 255) 0
              (mkLoop 1000 1002) 1018 default_canvas Hl) as (_ & H & _).
  exact H.
Defined.

(** X13, at two instances: the default canvas, which follows the window, and
    the canvas of [{ autoResize: false }], which does not. *)
Lemma window_resize_by_option_witness :
  (leaves_builtins Config.empty /\
   surface (_renderer
              (after not_a_numeral (Host_resize (num_of_Z 640) (num_of_Z 480))
                 default_canvas))
     = (num_of_Z 640, num_of_Z 480)) /\
  (leaves_builtins fixed_config /\
   after not_a_numeral (Host_resize (num_of_Z 640) (num_of_Z 480))
     (constructor not_a_numeral fixed_config
        (num_of_Z 800) (num_of_Z 600) 1000 1001 1002 ∅).2
     = (constructor not_a_numeral fixed_config
          (num_of_Z 800) (num_of_Z 600) 1000 1001 1002 ∅).2).
Proof.
  split.
  - split; [exact empty_leaves_builtins|].
    pose proof (window_resize_by_option not_a_numeral Config.empty
                  (num_of_Z 800) (num_of_Z 600) 1000 1001 1002 ∅ []
                  (num_of_Z 640) (num_of_Z 480) empty_leaves_builtins) as H.
    cbv zeta in H.
    change (Config.autoResize Config.empty ?? true) with true in H.
    cbv iota in H. destruct H as (H & _). exact H.
  - split; [exact fixed_leaves_builtins|].
    pose proof (window_resize_by_option not_a_numeral fixed_config
                  (num_of_Z 800) (num_of_Z 600) 1000 1001 1002 ∅ []
                  (num_of_Z 640) (num_of_Z 480) fixed_leaves_builtins) as H.
    cbv zeta in H.
    change (Config.autoResize fixed_config ?? true) with false in H.
    cbv iota in H. exact H.
Defined.

(** X14, at an instance: the canvas of
    [{ uniforms: { speed: 2, tint: t } }], the caller writing [t.value]. *)
Lemma caller_write_is_seen_witness :
  uniforms plain_canvas !! "tint" = Some (Supplied (VObject 0%nat)) /\
  own_entry (uniforms plain_canvas !! "frame") = true /\
  (getUniform "tint"
     (after not_a_numeral (Caller_write 0%nat "value" (VNumber (num_of_Z 9)))
        plain_canvas)).1
    = Normal (VNumber (num_of_Z 9)) /\
  (getUniform "frame"
     (after not_a_numeral (Caller_write 0%nat "value" (VNumber (num_of_Z 9)))
        plain_canvas)).1
    = (getUniform "frame" plain_canvas).1.
Proof.
  assert (H1 : uniforms plain_canvas !! "tint" = Some (Supplied (VObject 0%nat))).
  { vm_compute. reflexivity. }
  assert (H2 : own_entry (uniforms plain_canvas !! "frame") = true).
  { vm_compute. reflexivity. }
  split; [exact H1|]. split; [exact H2|].
  destruct (caller_write_is_seen not_a_numeral "tint" "frame" 0%nat 0%nat "value"
              (VNumber (num_of_Z 9)) (VNumber (num_of_Z 9)) plain_canvas H1 H2)
    as (Ha & Hb).
  split; [rewrite Ha|rewrite Hb]; vm_compute; reflexivity.
Defined.

(** X15, at an instance: [frame] on the default canvas, after two frames and
    a resize. *)
Lemma object_entries_stay_witness :
  object_entry (uniforms default_canvas !! "frame") = true /\
  object_entry
    (uniforms (after_all not_a_numeral frames_and_resize default_canvas) !! "frame")
    = true.
Proof.
  assert (H : object_entry (uniforms default_canvas !! "frame") = true).
  { vm_compute. reflexivity. }
  split; [exact H|].
  destruct (object_entries_stay not_a_numeral frames_and_resize "frame" VNull
              default_canvas H) as (H' & _).
  exact H'.
Defined.



(** X19, at an instance: the default canvas after two frames with a resize
    in between. *)
Lemma frames_fit_their_size_witness :
  leaves_builtins Config.empty /\
  Forall (fun c => sets "screenWidth" c = false /\
                   sets "screenHeight" c = false) frames_and_resize /\
  Forall frame_fits
    (rendered (_renderer
                 (after_all not_a_numeral frames_and_resize default_canvas))).
Proof.
  assert (Hcs : Forall (fun c => sets "screenWidth" c = false /\
                                 sets "screenHeight" c = false) frames_and_resize).
  { unfold frames_and_resize. repeat constructor. }
  split; [exact empty_leaves_builtins|]. split; [exact Hcs|].
  destruct (frames_fit_their_size not_a_numeral Config.empty
              (num_of_Z 800) (num_of_Z 600) 1000 1001 1002 ∅ frames_and_resize
              empty_leaves_builtins Hcs) as (H & _).
  exact H.
Defined.
